(** * goodtill-daily-export: the daily sales export, embedded and verified

    A shallow embedding of [fetch_daily_sails_git.py]: the paginated fetch
    ([fetch_all_sales_for_token]), the flattening of nested sales into one row
    per line item ([convert_sales_api_to_dataframe]) and the orchestration
    ([main]), followed by the properties stated about them.

    Python objects decoded from JSON are the inductive [json]; a dict is an
    association list in insertion order (its keys are pairwise distinct in
    Python; no result below depends on it).  Exceptions are values of [exn]
    carried by [result].  What the script takes from its libraries without
    defining it (parsing a string as a float, the summation of floats, the
    parsers of pandas, the formatting of dates, the CSV rendering) is the
    interface [Runtime]; the script's own control flow is written out. *)

From stdpp Require Import base option list strings gmap.
From Corelib Require Import SpecFloat.
From Stdlib Require Import ZArith Ascii.

Set Warnings "-register-all".
Local Open Scope Z_scope.
Local Open Scope string_scope.
Local Open Scope list_scope.

(** ** Python values *)

(** A Python [float] is an IEEE binary64 value. *)
Abbreviation float := spec_float.

Inductive number :=
| NInt (z : Z)
| NFloat (x : float).

Inductive json :=
| JNull
| JBool (b : bool)
| JNum (n : number)
| JStr (s : string)
| JList (l : list json)
| JDict (kvs : list (string * json)).

(** The exceptions of a run.  The two messages the script itself gives to
    [ValueError] and [RuntimeError] are kept as they are; the message of an
    exception raised inside a library is abridged. *)
Inductive exn :=
| ValueError (msg : string)
| TypeError
| AttributeError
| KeyError (key : string)
| OverflowError
| RuntimeError (msg : string)
| HTTPError.

Inductive result (A : Type) :=
| Ok (a : A)
| Raise (e : exn).
Arguments Ok {A} a.
Arguments Raise {A} e.

#[global] Instance result_ret : MRet result := fun _ a => Ok a.
#[global] Instance result_bind : MBind result := fun _ _ f m =>
  match m with
  | Ok a => f a
  | Raise e => Raise e
  end.

(** [for x in xs: ...] with a body that may raise: the first exception ends
    the loop. *)
Fixpoint for_each {A B} (f : A -> result B) (xs : list A) : result (list B) :=
  match xs with
  | [] => Ok []
  | x :: xs' => y ← f x; ys ← for_each f xs'; Ok (y :: ys)
  end.

(** [bool(v)] *)
Definition float_is_zero (x : float) : bool :=
  match x with
  | S754_zero _ => true
  | _ => false
  end.

Definition float_is_nan (x : float) : bool :=
  match x with
  | S754_nan => true
  | _ => false
  end.

Definition truthy (v : json) : bool :=
  match v with
  | JNull => false
  | JBool b => b
  | JNum (NInt z) => negb (Z.eqb z 0)
  | JNum (NFloat x) => negb (float_is_zero x)
  | JStr s => negb (String.eqb s "")
  | JList l => match l with [] => false | _ => true end
  | JDict kvs => match kvs with [] => false | _ => true end
  end.

(** The characters of a [str], each a [str] of length one (a character is
    one [ascii] of the text). *)
Fixpoint chars (s : string) : list json :=
  match s with
  | EmptyString => []
  | String c s' => JStr (String c EmptyString) :: chars s'
  end.

(** [iter(v)]: a list yields its elements, a dict its keys, a str its
    characters; anything else is not iterable. *)
Definition py_iter (v : json) : result (list json) :=
  match v with
  | JList l => Ok l
  | JDict kvs => Ok (map (fun kv => JStr (fst kv)) kvs)
  | JStr s => Ok (chars s)
  | _ => Raise TypeError
  end.

(** [len(v)] *)
Definition py_len (v : json) : result Z :=
  match v with
  | JList l => Ok (Z.of_nat (length l))
  | JDict kvs => Ok (Z.of_nat (length kvs))
  | JStr s => Ok (Z.of_nat (String.length s))
  | _ => Raise TypeError
  end.

(** Lookup in a dict's entries. *)
Fixpoint dict_get (k : string) (kvs : list (string * json)) : option json :=
  match kvs with
  | [] => None
  | (k', v) :: kvs' => if String.eqb k k' then Some v else dict_get k kvs'
  end.

(** [d[k] = v] *)
Fixpoint dict_set (k : string) (v : json) (kvs : list (string * json))
  : list (string * json) :=
  match kvs with
  | [] => [(k, v)]
  | (k', v') :: kvs' =>
      if String.eqb k k' then (k, v) :: kvs' else (k', v') :: dict_set k v kvs'
  end.

(** [obj.get(k, default)]: only a dict has the method. *)
Definition py_get (obj : json) (k : string) (dflt : json) : result json :=
  match obj with
  | JDict kvs => Ok (default dflt (dict_get k kvs))
  | _ => Raise AttributeError
  end.

(** [obj.keys()] and [obj.values()] *)
Definition py_keys (obj : json) : result (list string) :=
  match obj with
  | JDict kvs => Ok (map fst kvs)
  | _ => Raise AttributeError
  end.

Definition py_values (obj : json) : result (list json) :=
  match obj with
  | JDict kvs => Ok (map snd kvs)
  | _ => Raise AttributeError
  end.

(** [sep.join(parts)] *)
Definition str_join (sep : string) (parts : list string) : string :=
  String.concat sep parts.

(** ** Tables *)

(** A cell of a [DataFrame]: missing ([None], [NaN], [NaT]), a Python object,
    or a timestamp (nanoseconds since the epoch). *)
Inductive cell :=
| CNull
| CObj (v : json)
| CTime (ns : Z).

Definition row := list (string * cell).

Record DataFrame := {
  columns : list string;
  rows : list row
}.

Record date := { year : Z; month : Z; day : Z }.

Record datetime := {
  dt_date : date;
  hour : Z;
  minute : Z;
  second : Z
}.

(** ** What the script takes from Python and pandas *)

Class Runtime := {
  (** [float(n)] for an int [n]; [None] when it overflows *)
  float_of_int : Z -> option float;
  (** [float(s)] for a str [s]; [None] when [s] is not a float literal *)
  float_of_string : string -> option float;
  (** [sum] over floats, from the int [0], of a non-empty sequence *)
  float_sum : list float -> float;
  (** the number [pd.to_numeric] reads in a str; [None] when it reads none *)
  pd_parse_number : string -> option number;
  (** [pd.to_datetime] on the non-missing entries of a column, in order: the
      timestamps ([None] for an entry read as [NaT]), or the exception raised
      when the column is refused *)
  pd_parse_datetimes : list json -> result (list (option Z));
  (** the text [DataFrame.to_csv(index=False)] writes *)
  csv_text : DataFrame -> string;
  (** [date.fromisoformat] *)
  date_fromisoformat : string -> option date;
  (** [d - timedelta(days=1)] *)
  day_before : date -> date;
  (** [strftime] with a format *)
  strftime : string -> datetime -> string
}.

Definition float_one : float := S754_finite false 4503599627370496 (-52).

Section Flattener.
Context `{RT : Runtime}.

(** [float(v)] *)
Definition py_float (v : json) : result float :=
  match v with
  | JNum (NFloat x) => Ok x
  | JNum (NInt z) =>
      match float_of_int z with
      | Some x => Ok x
      | None => Raise OverflowError
      end
  | JBool b => Ok (if b then float_one else S754_zero false)
  | JStr s =>
      match float_of_string s with
      | Some x => Ok x
      | None => Raise (ValueError "could not convert string to float")
      end
  | JNull | JList _ | JDict _ => Raise TypeError
  end.

(** [sum(xs)] for floats [xs]: the start value is the int [0]. *)
Definition py_sum (xs : list float) : number :=
  match xs with
  | [] => NInt 0
  | _ => NFloat (float_sum xs)
  end.

(** ** The flattener *)

(** [sale.get('sales_details', {}).get('sales_items', [])] *)
Definition sales_items_of (sale : json) : result json :=
  details ← py_get sale "sales_details" (JDict []);
  py_get details "sales_items" (JList []).

(** [float(p.get('payment_total', 0))] *)
Definition payment_amount (p : json) : result float :=
  a ← py_get p "payment_total" (JNum (NInt 0));
  py_float a.

(** [sum(float(p.get('payment_total', 0))
        for p in sale.get('sales_payments', {}).values())] *)
Definition payment_total_of (sale : json) : result number :=
  payments ← py_get sale "sales_payments" (JDict []);
  ps ← py_values payments;
  amounts ← for_each payment_amount ps;
  Ok (py_sum amounts).

(** [list(sale.get('sales_payments', {}).keys())] *)
Definition payment_methods_of (sale : json) : result (list string) :=
  payments ← py_get sale "sales_payments" (JDict []);
  py_keys payments.

(** [a.get(k1, {}).get(k2, dflt)] *)
Definition py_get2 (obj : json) (k1 k2 : string) (dflt : json) : result json :=
  inner ← py_get obj k1 (JDict []);
  py_get inner k2 dflt.

(** The dict display [row = { ... }]: the values are evaluated in order, and
    the first one that raises ends the evaluation. *)
Definition dict_display (entries : list (string * result json))
  : result (list (string * json)) :=
  for_each (fun kv => v ← snd kv; Ok (fst kv, v)) entries.

Definition row_entries (sale item : json) (payment_methods : list string)
    (payment_total : number) : list (string * result json) :=
  [ ("sale_id", py_get sale "id" JNull);
    ("outlet_id", py_get sale "outlet_id" JNull);
    ("outlet_name", py_get2 sale "outlet" "outlet_name" (JStr ""));
    ("register_id", py_get sale "register_id" JNull);
    ("register_name", py_get2 sale "register" "register_name" (JStr ""));
    ("staff_id", py_get sale "staff_id" JNull);
    ("customer_id", py_get sale "customer_id" JNull);
    ("order_no", py_get sale "order_no" JNull);
    ("sale_type", py_get sale "sale_type" JNull);
    ("order_status", py_get sale "order_status" JNull);
    ("receipt_no", py_get sale "receipt_no" JNull);
    ("sales_date_time", py_get sale "sales_date_time" JNull);
    ("item_id", py_get item "id" JNull);
    ("product_id", py_get item "product_id" JNull);
    ("product_name", py_get item "product_name" JNull);
    ("quantity", py_get item "quantity" JNull);
    ("price_inc_vat_per_item", py_get item "price_inc_vat_per_item" JNull);
    ("vat_rate", py_get item "vat_rate" JNull);
    ("vat_rate_id", py_get item "vat_rate_id" JNull);
    ("line_total_after_line_discount",
      py_get item "line_total_after_line_discount" JNull);
    ("line_subtotal_after_line_discount",
      py_get item "line_subtotal_after_line_discount" JNull);
    ("line_vat_after_line_discount",
      py_get item "line_vat_after_line_discount" JNull);
    ("line_total_after_discount", py_get item "line_total_after_discount" JNull);
    ("line_subtotal_after_discount",
      py_get item "line_subtotal_after_discount" JNull);
    ("line_vat_after_discount", py_get item "line_vat_after_discount" JNull);
    ("has_discount", py_get item "has_discount" JNull);
    ("discount_amount", py_get item "discount_amount" JNull);
    ("discount_is_percentage", py_get item "discount_is_percentage" JNull);
    ("discount_id", py_get item "discount_id" JNull);
    ("sale_quantity_total", py_get2 sale "sales_details" "quantity" JNull);
    ("sale_total", py_get2 sale "sales_details" "total" JNull);
    ("sale_subtotal", py_get2 sale "sales_details" "total_ex_vat" JNull);
    ("sale_vat_total", py_get2 sale "sales_details" "total_vat" JNull);
    ("sale_line_discount", py_get2 sale "sales_details" "line_discount" JNull);
    ("payment_methods", Ok (JStr (str_join ";" payment_methods)));
    ("payment_total", Ok (JNum payment_total));
    ("item_notes", py_get item "item_notes" JNull);
    ("sequence_no", py_get item "sequence_no" JNull);
    ("created_at", py_get item "created_at" JNull) ].

(** The body of the inner loop: one row for one item of one sale. *)
Definition item_row (sale item : json) : result (list (string * json)) :=
  payment_methods ← payment_methods_of sale;
  payment_total ← payment_total_of sale;
  dict_display (row_entries sale item payment_methods payment_total).

(** The body of the outer loop: the rows one sale appends. *)
Definition sale_rows (sale : json) : result (list (list (string * json))) :=
  sales_items ← sales_items_of sale;
  items ← py_iter sales_items;
  for_each (item_row sale) items.

(** ** [pd.DataFrame(rows)] and the column operations *)

Definition cell_of (v : json) : cell :=
  match v with
  | JNull => CNull
  | JNum (NFloat x) => if float_is_nan x then CNull else CObj v
  | _ => CObj v
  end.

Definition mem (k : string) (ks : list string) : bool :=
  existsb (String.eqb k) ks.

(** The columns seen so far, then the new ones in their order. *)
Definition merge_keys (acc ks : list string) : list string :=
  acc ++ List.filter (fun k => negb (mem k acc)) ks.

Fixpoint row_get (col : string) (r : row) : cell :=
  match r with
  | [] => CNull
  | (k, c) :: r' => if String.eqb col k then c else row_get col r'
  end.

Fixpoint row_set (col : string) (c : cell) (r : row) : row :=
  match r with
  | [] => [(col, c)]
  | (k, c') :: r' =>
      if String.eqb col k then (col, c) :: r' else (k, c') :: row_set col c r'
  end.

(** A row laid out over the columns of its table; an absent entry is missing. *)
Definition align (cols : list string) (r : row) : row :=
  map (fun k => (k, row_get k r)) cols.

(** [pd.DataFrame(records)] for a list of dicts: the columns are the keys in
    the order they are first seen. *)
Definition make_frame (records : list (list (string * json))) : DataFrame :=
  let cols := foldl (fun acc r => merge_keys acc (map fst r)) [] records in
  {| columns := cols;
     rows := map (fun r => align cols (map (prod_map id cell_of) r)) records |}.

(** [df[col]] *)
Definition get_column (col : string) (df : DataFrame) : result (list cell) :=
  if mem col (columns df) then Ok (map (row_get col) (rows df))
  else Raise (KeyError col).

(** [df[col] = values], the values taken by position; a row past the end of
    the values gets a missing entry. *)
Fixpoint set_cells (col : string) (vals : list cell) (rs : list row) : list row :=
  match rs with
  | [] => []
  | r :: rs' => row_set col (hd CNull vals) r :: set_cells col (tl vals) rs'
  end.

Definition set_column (col : string) (vals : list cell) (df : DataFrame)
  : DataFrame :=
  {| columns := merge_keys (columns df) [col];
     rows := set_cells col vals (rows df) |}.

(** [df[col] = v] for a scalar [v] *)
Definition set_column_scalar (col : string) (v : cell) (df : DataFrame)
  : DataFrame :=
  {| columns := merge_keys (columns df) [col];
     rows := map (row_set col v) (rows df) |}.

(** [pd.concat([a, b], ignore_index=True)] *)
Definition pd_concat (a b : DataFrame) : DataFrame :=
  let cols := merge_keys (columns a) (columns b) in
  {| columns := cols; rows := map (align cols) (rows a ++ rows b) |}.

(** [pd.to_datetime(column)]: missing entries stay missing, the others are
    parsed together. *)
Definition present (c : cell) : option json :=
  match c with
  | CObj v => Some v
  | _ => None
  end.

Definition time_cell (t : option Z) : cell :=
  match t with
  | Some ns => CTime ns
  | None => CNull
  end.

Fixpoint fill_times (col : list cell) (ts : list (option Z)) : list cell :=
  match col with
  | [] => []
  | CObj _ :: col' => time_cell (mjoin (head ts)) :: fill_times col' (tail ts)
  | c :: col' => c :: fill_times col' ts
  end.

Definition pd_to_datetime (col : list cell) : result (list cell) :=
  ts ← pd_parse_datetimes (omap present col);
  Ok (fill_times col ts).

(** [pd.to_numeric(column, errors='coerce')], entry by entry: what is not
    read as a number becomes missing. *)
Definition to_numeric_coerce (c : cell) : cell :=
  match c with
  | CNull => CNull
  | CObj (JStr s) =>
      match pd_parse_number s with
      | Some n => cell_of (JNum n)
      | None => CNull
      end
  | CObj (JNum n) => c
  | CObj (JBool b) => c
  | CObj JNull => CNull
  | CObj (JList _) => CNull
  | CObj (JDict _) => CNull
  | CTime ns => CObj (JNum (NInt ns))
  end.

Definition numeric_columns : list string :=
  [ "quantity"; "price_inc_vat_per_item"; "vat_rate";
    "line_total_after_line_discount"; "line_subtotal_after_line_discount";
    "line_vat_after_line_discount"; "line_total_after_discount";
    "line_subtotal_after_discount"; "line_vat_after_discount";
    "discount_amount"; "payment_total" ].

(** [df[col] = pd.to_datetime(df[col])] *)
Definition convert_datetime (col : string) (df : DataFrame) : result DataFrame :=
  c ← get_column col df;
  t ← pd_to_datetime c;
  Ok (set_column col t df).

(** One round of the loop over [numeric_columns]. *)
Definition convert_numeric (df : DataFrame) (col : string) : DataFrame :=
  if mem col (columns df)
  then set_column col (map to_numeric_coerce (map (row_get col) (rows df))) df
  else df.

(** The type conversions applied to the assembled table. *)
Definition normalise (df : DataFrame) : result DataFrame :=
  df ← convert_datetime "sales_date_time" df;
  df ← convert_datetime "created_at" df;
  Ok (foldl convert_numeric df numeric_columns).

Definition convert_sales_api_to_dataframe (json_data : json) : result DataFrame :=
  sales_list ←
    match json_data with
    | JList _ => Ok json_data
    | JDict kvs =>
        match dict_get "data" kvs with
        | Some v => Ok v
        | None => Raise (ValueError "Expected dict with 'data' key or list of sales")
        end
    | _ => Raise (ValueError "Expected dict with 'data' key or list of sales")
    end;
  if negb (truthy sales_list) then Raise (ValueError "No sales data found")
  else
    sales ← py_iter sales_list;
    blocks ← for_each sale_rows sales;
    normalise (make_frame (concat blocks)).

End Flattener.

(** ** The world the script runs in *)

Record request := {
  rq_token : string;
  rq_from : string;
  rq_to : string;
  rq_limit : Z;
  rq_offset : Z
}.

(** What [requests.get] brings back: a status [raise_for_status] refuses, a
    body that is not JSON, or the decoded body. *)
Inductive response :=
| HttpFailure
| NotJson
| Payload (data : json).

(** The requests sent so far, the files of the archive by path, and the lines
    printed. *)
Record world := {
  sent : list request;
  files : gmap string string;
  stdout : list string
}.

(** A run ends by returning, by raising, or is still running when the fuel
    of its loop is spent. *)
Inductive status (A : Type) :=
| Returned (a : A)
| Raised (e : exn)
| Running.
Arguments Returned {A} a.
Arguments Raised {A} e.
Arguments Running {A}.

Definition prog (A : Type) : Type := world -> status A * world.

#[global] Instance prog_ret : MRet prog := fun _ a w => (Returned a, w).
#[global] Instance prog_bind : MBind prog := fun _ _ f m w =>
  match m w with
  | (Returned a, w') => f a w'
  | (Raised e, w') => (Raised e, w')
  | (Running, w') => (Running, w')
  end.

Definition lift {A} (r : result A) : prog A := fun w =>
  match r with
  | Ok a => (Returned a, w)
  | Raise e => (Raised e, w)
  end.

Section Script.
Context `{RT : Runtime}.

(** The API: its answer to a request, given the requests sent before. *)
Variable server : list request -> request -> response.

Definition http_get (rq : request) : prog response := fun w =>
  (Returned (server (sent w) rq),
   {| sent := sent w ++ [rq]; files := files w; stdout := stdout w |}).

Definition print (line : string) : prog unit := fun w =>
  (Returned tt,
   {| sent := sent w; files := files w; stdout := stdout w ++ [line] |}).

Definition file_exists (path : string) : prog bool := fun w =>
  (Returned (bool_decide (is_Some (files w !! path))), w).

Definition write_file (path text : string) : prog unit := fun w =>
  (Returned tt,
   {| sent := sent w; files := <[path := text]> (files w); stdout := stdout w |}).

(** [resp.raise_for_status(); data = resp.json()] *)
Definition decoded (resp : response) : result json :=
  match resp with
  | HttpFailure => Raise HTTPError
  | NotJson => Raise (ValueError "JSONDecodeError")
  | Payload data => Ok data
  end.

(** [data.get("data", []) if isinstance(data, dict) else data] *)
Definition batch_of (data : json) : json :=
  match data with
  | JDict kvs => default (JList []) (dict_get "data" kvs)
  | _ => data
  end.

(** ** The fetcher *)

(** The [while True] loop; one unit of fuel per round. *)
Fixpoint fetch_loop (fuel : nat) (token start_date end_date : string)
    (limit offset : Z) (all_sales : list json) : prog (list json) :=
  match fuel with
  | O => fun w => (Running, w)
  | S fuel' =>
      resp ← http_get {| rq_token := token; rq_from := start_date;
                         rq_to := end_date; rq_limit := limit;
                         rq_offset := offset |};
      data ← lift (decoded resp);
      let batch := batch_of data in
      if negb (truthy batch) then mret all_sales
      else
        items ← lift (py_iter batch);
        let all_sales := all_sales ++ items in
        n ← lift (py_len batch);
        if Z.ltb n limit then mret all_sales
        else fetch_loop fuel' token start_date end_date limit (offset + limit)
               all_sales
  end.

Definition fetch_all_sales_for_token (fuel : nat)
    (token start_date end_date : string) (limit : Z) : prog (list json) :=
  fetch_loop fuel token start_date end_date limit 0 [].

(** ** The orchestrator *)

Definition at_time (d : date) (h m s : Z) : datetime :=
  {| dt_date := d; hour := h; minute := m; second := s |}.

Definition get_range_for_date (target_date : date) : string * string * date :=
  let start := at_time target_date 0 0 0 in
  let end_ := at_time target_date 23 59 59 in
  (strftime "%Y-%m-%d %H:%M:%S" start,
   strftime "%Y-%m-%d %H:%M:%S" end_,
   target_date).

(** What the process is started with: the two tokens of the environment, the
    directory of the script, the day it runs, and the [--date] argument. *)
Record env := {
  FOOD_TOKEN : option string;
  BAR_TOKEN : option string;
  BASE_DIR : string;
  today : date;
  arg_date : option string
}.

Definition ARCHIVE_FOLDER (e : env) : string :=
  BASE_DIR e +:+ "/GoodtillSalesArchive".

(** [ARCHIVE_FOLDER / f"{yday:%Y-%m-%d}_sales.csv"] *)
Definition filename (e : env) (yday : date) : string :=
  ARCHIVE_FOLDER e +:+ "/" +:+ strftime "%Y-%m-%d" (at_time yday 0 0 0)
    +:+ "_sales.csv".

Definition token_text (t : option string) : string := default "" t.

(** [args.date] when it is given and not empty, else yesterday *)
Definition target_date_of (e : env) : result date :=
  match arg_date e with
  | Some s =>
      if negb (String.eqb s "") then
        match date_fromisoformat s with
        | Some d => Ok d
        | None => Raise (ValueError "Invalid isoformat string")
        end
      else Ok (day_before (today e))
  | None => Ok (day_before (today e))
  end.

(** [pd.concat([food_df, bar_df], ignore_index=True)] of the two tagged
    tables *)
Definition full_df (food_df bar_df : DataFrame) : DataFrame :=
  pd_concat (set_column_scalar "Area" (CObj (JStr "Food")) food_df)
            (set_column_scalar "Area" (CObj (JStr "Bar")) bar_df).

Definition skip_notice (path : string) : string :=
  "File already exists, skipping: " +:+ path.

Definition saved_notice (path : string) : string :=
  "Saved daily sales to " +:+ path.

Definition main (fuel : nat) (e : env) : prog unit :=
  target_date ← lift (target_date_of e);
  let '(start_str, end_str, yday) := get_range_for_date target_date in
  food_json ← fetch_all_sales_for_token fuel (token_text (FOOD_TOKEN e))
                start_str end_str 50;
  food_df ← lift (convert_sales_api_to_dataframe (JList food_json));
  bar_json ← fetch_all_sales_for_token fuel (token_text (BAR_TOKEN e))
               start_str end_str 50;
  bar_df ← lift (convert_sales_api_to_dataframe (JList bar_json));
  let full := full_df food_df bar_df in
  let path := filename e yday in
  present ← file_exists path;
  if present : bool then print (skip_notice path)
  else
    write_file path (csv_text full);;
    print (saved_notice path).

(** The module as a script: the tokens are checked when it is loaded, then
    [main()] runs. *)
Definition set_token (t : option string) : bool :=
  match t with
  | Some s => negb (String.eqb s "")
  | None => false
  end.

Definition script (fuel : nat) (e : env) : prog unit :=
  if set_token (FOOD_TOKEN e) && set_token (BAR_TOKEN e) then main fuel e
  else lift (Raise (RuntimeError
         "FOOD_TOKEN and/or BAR_TOKEN environment variables are not set.")).

End Script.

(** ** A runtime to run examples on

    Plain decimal numerals and ISO dates, read and rounded as CPython and
    pandas read them; everything else is refused.  The general results below
    hold for every [Runtime]; this one evaluates the script on concrete
    inputs. *)
Module Reference.

Definition digit_of (c : ascii) : option Z :=
  let n := Z.of_nat (nat_of_ascii c) in
  if ((48 <=? n) && (n <=? 57))%Z then Some (n - 48) else None.

(** The value of a string of digits, with their count. *)
Fixpoint digits_from (s : string) (acc : Z) (count : nat) : option (Z * nat) :=
  match s with
  | EmptyString => Some (acc, count)
  | String c s' =>
      match digit_of c with
      | Some d => digits_from s' (10 * acc + d) (S count)
      | None => None
      end
  end.

Definition digits (s : string) : option (Z * nat) := digits_from s 0 O.

Fixpoint split_at (sep : ascii) (s : string) : string * option string :=
  match s with
  | EmptyString => (EmptyString, None)
  | String c s' =>
      if Ascii.eqb c sep then (EmptyString, Some s')
      else let '(a, b) := split_at sep s' in (String c a, b)
  end.

Definition unsigned (s : string) : bool * string :=
  match s with
  | String "-" s' => (true, s')
  | String "+" s' => (false, s')
  | _ => (false, s)
  end.

(** [sign digits [. digits]] as the integer [m] and the scale [k]: the
    numeral denotes [m / 10^k]. *)
Definition decimal (s : string) : option (bool * Z * nat * bool) :=
  let '(neg, body) := unsigned s in
  let '(ip, fp) := split_at "." body in
  '(i, ni) ← digits ip;
  '(f, nf) ← digits (default "" fp);
  if Nat.eqb (ni + nf) 0 then None
  else Some (neg, i * 10 ^ Z.of_nat nf + f, nf, bool_decide (is_Some fp)).

(** [m / 10^k], rounded once to binary64. *)
Definition float_of_decimal (neg : bool) (m : Z) (k : nat) : float :=
  match m with
  | Zpos p =>
      SFdiv 53 1024 (S754_finite neg p 0)
                    (S754_finite false (Pos.pow 10 (Pos.of_nat k)) 0)
  | _ => S754_zero neg
  end.

Definition scaled (neg : bool) (m : Z) (k : nat) : float :=
  match k with
  | O => binary_normalize 53 1024 (if neg then - m else m) 0 neg
  | _ => float_of_decimal neg m k
  end.

Definition float_of_string (s : string) : option float :=
  '(neg, m, k, _) ← decimal s;
  Some (scaled neg m k).

Definition float_of_int (z : Z) : option float :=
  match binary_normalize 53 1024 z 0 false with
  | S754_infinity _ => None
  | x => Some x
  end.

Definition float_sum (xs : list float) : float :=
  foldl (SFadd 53 1024) (S754_zero false) xs.

Definition pd_parse_number (s : string) : option number :=
  '(neg, m, k, dotted) ← decimal s;
  if dotted : bool then Some (NFloat (scaled neg m k))
  else Some (NInt (if neg then - m else m)).

Definition is_leap (y : Z) : bool :=
  (y mod 4 =? 0)%Z && (negb (y mod 100 =? 0)%Z || (y mod 400 =? 0)%Z).

Definition days_in_month (y m : Z) : Z :=
  if (m =? 2)%Z then (if is_leap y then 29 else 28)
  else if ((m =? 4) || (m =? 6) || (m =? 9) || (m =? 11))%Z then 30
  else 31.

Definition valid_date (y m d : Z) : bool :=
  ((1 <=? y) && (y <=? 9999) && (1 <=? m) && (m <=? 12)
   && (1 <=? d) && (d <=? days_in_month y m))%Z.

(** Days from 1970-01-01 to a date of the proleptic Gregorian calendar. *)
Definition days_from_civil (y m d : Z) : Z :=
  let y' := if (m <=? 2)%Z then y - 1 else y in
  let era := y' / 400 in
  let yoe := y' - era * 400 in
  let doy := (153 * (if (m <=? 2)%Z then m + 9 else m - 3) + 2) / 5 + d - 1 in
  let doe := yoe * 365 + yoe / 4 - yoe / 100 + doy in
  era * 146097 + doe - 719468.

Definition field (s : string) (start len : nat) : option Z :=
  fst <$> digits (String.substring start len s).

Definition iso_date (s : string) : option date :=
  y ← field s 0 4;
  m ← field s 5 2;
  d ← field s 8 2;
  if String.eqb (String.substring 4 1 s) "-"
     && String.eqb (String.substring 7 1 s) "-"
     && valid_date y m d
  then Some {| year := y; month := m; day := d |}
  else None.

Definition date_fromisoformat (s : string) : option date :=
  if Nat.eqb (String.length s) 10 then iso_date s else None.

(** ["YYYY-MM-DD HH:MM:SS"] as nanoseconds since the epoch. *)
Definition timestamp (s : string) : option Z :=
  d ← iso_date s;
  h ← field s 11 2;
  mi ← field s 14 2;
  se ← field s 17 2;
  if Nat.eqb (String.length s) 19
     && String.eqb (String.substring 10 1 s) " "
     && String.eqb (String.substring 13 1 s) ":"
     && String.eqb (String.substring 16 1 s) ":"
     && ((h <? 24) && (mi <? 60) && (se <? 60))%Z
  then Some ((((days_from_civil (year d) (month d) (day d) * 24 + h) * 60
               + mi) * 60 + se) * 1000000000)
  else None.

Definition pd_parse_datetimes (vs : list json) : result (list (option Z)) :=
  for_each (fun v =>
              match v with
              | JStr s =>
                  match timestamp s with
                  | Some ns => Ok (Some ns)
                  | None => Raise (ValueError "time data does not match format")
                  end
              | _ => Raise TypeError
              end) vs.

Definition day_before (d : date) : date :=
  if (1 <? day d)%Z then {| year := year d; month := month d; day := day d - 1 |}
  else if (1 <? month d)%Z then
    {| year := year d; month := month d - 1;
       day := days_in_month (year d) (month d - 1) |}
  else {| year := year d - 1; month := 12; day := 31 |}.

Definition digit_char (d : Z) : ascii := ascii_of_nat (Z.to_nat (48 + d mod 10)).

(** The last [width] decimal digits of a natural number, zero padded. *)
Fixpoint padded (width : nat) (n : Z) : string :=
  match width with
  | O => ""
  | S w => padded w (n / 10) +:+ String (digit_char n) ""
  end.

Definition ymd (d : date) : string :=
  padded 4 (year d) +:+ "-" +:+ padded 2 (month d) +:+ "-" +:+ padded 2 (day d).

Definition strftime (fmt : string) (t : datetime) : string :=
  if String.eqb fmt "%Y-%m-%d" then ymd (dt_date t)
  else if String.eqb fmt "%Y-%m-%d %H:%M:%S" then
    ymd (dt_date t) +:+ " " +:+ padded 2 (hour t) +:+ ":"
      +:+ padded 2 (minute t) +:+ ":" +:+ padded 2 (second t)
  else fmt.

(** A rendering that keeps the shape of the table: a header line, then one
    line per row, the text of a string entry and nothing for any other. *)
Definition cell_text (c : cell) : string :=
  match c with
  | CObj (JStr s) => s
  | _ => ""
  end.

Definition csv_text (df : DataFrame) : string :=
  str_join (String "010" "")
    (str_join "," (columns df)
       :: map (fun r => str_join "," (map (fun k => cell_text (row_get k r))
                                          (columns df)))
              (rows df)).

Definition runtime : Runtime :=
  Build_Runtime float_of_int float_of_string float_sum pd_parse_number
    pd_parse_datetimes csv_text date_fromisoformat day_before strftime.

End Reference.

(** ** Concrete inputs

    The sale of the end-to-end scenario, in its parts, and the worlds and
    servers the examples run in. *)

Definition scenario_item : list (string * json) :=
  [ ("id", JNum (NInt 10));
    ("product_id", JNum (NInt 5));
    ("quantity", JStr "2");
    ("price_inc_vat_per_item", JStr "3.50") ].

Definition scenario_details : list (string * json) :=
  [ ("sales_items", JList [JDict scenario_item]);
    ("quantity", JNum (NInt 1));
    ("total", JStr "7.00") ].

Definition scenario_entries : list (string * json) :=
  [ ("id", JNum (NInt 1));
    ("sales_details", JDict scenario_details);
    ("sales_payments",
      JDict [ ("cash", JDict [ ("payment_total", JStr "7.00") ]) ]) ].

Definition scenario_sale : json := JDict scenario_entries.

Definition no_frame : DataFrame := {| columns := []; rows := [] |}.

Definition frame_of (r : result DataFrame) : DataFrame :=
  match r with
  | Ok df => df
  | Raise _ => no_frame
  end.

(** The table the flattener returns for the scenario. *)
Definition scenario_frame : DataFrame :=
  Eval vm_compute in
    frame_of (convert_sales_api_to_dataframe (RT := Reference.runtime)
                (JList [scenario_sale])).

(** A sale with one line item whose only payment has the amount ["N/A"]. *)
Definition unparsable_payment_sale : json :=
  JDict [ ("id", JNum (NInt 3));
          ("sales_details", JDict [ ("sales_items", JList [JDict scenario_item]) ]);
          ("sales_payments",
            JDict [ ("cash", JDict [ ("payment_total", JStr "N/A") ]) ]) ].

(** A sale with one line item and no ['sales_payments'] key. *)
Definition unpaid_entries : list (string * json) :=
  [ ("id", JNum (NInt 4));
    ("sales_details", JDict [ ("sales_items", JList [JDict scenario_item]) ]) ].

Definition unpaid_frame : DataFrame :=
  Eval vm_compute in
    frame_of (convert_sales_api_to_dataframe (RT := Reference.runtime)
                (JList [JDict unpaid_entries])).

(** A sale without details, whose payment has the amount ["N/A"]. *)
Definition voided_entries : list (string * json) := [ ("id", JNum (NInt 2)) ].

Definition unparsable_payments : json :=
  JDict [ ("cash", JDict [ ("payment_total", JStr "N/A") ]) ].

(** An API with fifty sales: a full first page, then empty pages. *)
Definition fifty_sales : list json := replicate 50 scenario_sale.

Definition fifty_sales_server (history : list request) (rq : request)
  : response :=
  Payload (JList (if Z.eqb (rq_offset rq) 0 then fifty_sales else [])).

(** An API with the scenario's sale for either token. *)
Definition one_sale_server (history : list request) (rq : request) : response :=
  Payload (JDict [ ("data",
                     JList (if Z.eqb (rq_offset rq) 0 then [scenario_sale]
                            else [])) ]).

(** An API that answers every request with an error status. *)
Definition server_down (history : list request) (rq : request) : response :=
  HttpFailure.

Definition nightly_env : env :=
  {| FOOD_TOKEN := Some "food-token";
     BAR_TOKEN := Some "bar-token";
     BASE_DIR := "/repo";
     today := {| year := 2024; month := 3; day := 2 |};
     arg_date := None |}.

Definition march_first : date := {| year := 2024; month := 3; day := 1 |}.

Definition fresh_world : world :=
  {| sent := []; files := ∅; stdout := [] |}.

(** A world in which the file of the first of March is already written. *)
Definition archived_world : world :=
  {| sent := [];
     files := {[ "/repo/GoodtillSalesArchive/2024-03-01_sales.csv" := "Area" ]};
     stdout := [] |}.

(** ** The fixed field set of a row, in the order of the dict display *)

Definition FIELDS : list string :=
  [ "sale_id"; "outlet_id"; "outlet_name"; "register_id"; "register_name";
    "staff_id"; "customer_id"; "order_no"; "sale_type"; "order_status";
    "receipt_no"; "sales_date_time"; "item_id"; "product_id"; "product_name";
    "quantity"; "price_inc_vat_per_item"; "vat_rate"; "vat_rate_id";
    "line_total_after_line_discount"; "line_subtotal_after_line_discount";
    "line_vat_after_line_discount"; "line_total_after_discount";
    "line_subtotal_after_discount"; "line_vat_after_discount";
    "has_discount"; "discount_amount"; "discount_is_percentage";
    "discount_id"; "sale_quantity_total"; "sale_total"; "sale_subtotal";
    "sale_vat_total"; "sale_line_discount"; "payment_methods";
    "payment_total"; "item_notes"; "sequence_no"; "created_at" ].

Definition date_columns : list string := [ "sales_date_time"; "created_at" ].

(** ** The shape of a finished row

    The conversions written as functions of one row, to state what a row of
    the result holds. *)

(** The first entry of a dict display under a key. *)
Fixpoint entry (k : string) (es : list (string * result json))
  : option (result json) :=
  match es with
  | [] => None
  | (k', e) :: es' => if String.eqb k k' then Some e else entry k es'
  end.


(** The numeric columns that are read from the item. *)
Definition item_numeric_fields : list string :=
  [ "quantity"; "price_inc_vat_per_item"; "vat_rate";
    "line_total_after_line_discount"; "line_subtotal_after_line_discount";
    "line_vat_after_line_discount"; "line_total_after_discount";
    "line_subtotal_after_discount"; "line_vat_after_discount";
    "discount_amount" ].

(** The sale [ds] with [items] as the line items of its details [sd]. *)
Definition with_items (ds sd : list (string * json)) (items : list json) : json :=
  JDict (dict_set "sales_details"
           (JDict (dict_set "sales_items" (JList items) sd)) ds).

(** Where a field of the row is read from. *)
Inductive source :=
| SaleKey (k : string)            (* [sale.get(k)] *)
| SaleNested (k1 k2 : string)     (* [sale.get(k1, {}).get(k2, ...)] *)
| ItemKey (k : string)            (* [item.get(k)] *)
| Payments.                       (* from [sale.get('sales_payments', {})] *)

Definition sources : list (string * source) :=
  [ ("sale_id", SaleKey "id");
    ("outlet_id", SaleKey "outlet_id");
    ("outlet_name", SaleNested "outlet" "outlet_name");
    ("register_id", SaleKey "register_id");
    ("register_name", SaleNested "register" "register_name");
    ("staff_id", SaleKey "staff_id");
    ("customer_id", SaleKey "customer_id");
    ("order_no", SaleKey "order_no");
    ("sale_type", SaleKey "sale_type");
    ("order_status", SaleKey "order_status");
    ("receipt_no", SaleKey "receipt_no");
    ("sales_date_time", SaleKey "sales_date_time");
    ("item_id", ItemKey "id");
    ("product_id", ItemKey "product_id");
    ("product_name", ItemKey "product_name");
    ("quantity", ItemKey "quantity");
    ("price_inc_vat_per_item", ItemKey "price_inc_vat_per_item");
    ("vat_rate", ItemKey "vat_rate");
    ("vat_rate_id", ItemKey "vat_rate_id");
    ("line_total_after_line_discount", ItemKey "line_total_after_line_discount");
    ("line_subtotal_after_line_discount",
      ItemKey "line_subtotal_after_line_discount");
    ("line_vat_after_line_discount", ItemKey "line_vat_after_line_discount");
    ("line_total_after_discount", ItemKey "line_total_after_discount");
    ("line_subtotal_after_discount", ItemKey "line_subtotal_after_discount");
    ("line_vat_after_discount", ItemKey "line_vat_after_discount");
    ("has_discount", ItemKey "has_discount");
    ("discount_amount", ItemKey "discount_amount");
    ("discount_is_percentage", ItemKey "discount_is_percentage");
    ("discount_id", ItemKey "discount_id");
    ("sale_quantity_total", SaleNested "sales_details" "quantity");
    ("sale_total", SaleNested "sales_details" "total");
    ("sale_subtotal", SaleNested "sales_details" "total_ex_vat");
    ("sale_vat_total", SaleNested "sales_details" "total_vat");
    ("sale_line_discount", SaleNested "sales_details" "line_discount");
    ("payment_methods", Payments);
    ("payment_total", Payments);
    ("item_notes", ItemKey "item_notes");
    ("sequence_no", ItemKey "sequence_no");
    ("created_at", ItemKey "created_at") ].

(** The key a field is read from is absent from the sale [ds] or the item
    [di]. *)
Definition absent (src : source) (ds di : list (string * json)) : Prop :=
  match src with
  | SaleKey k => dict_get k ds = None
  | SaleNested k1 k2 =>
      dict_get k1 ds = None \/
      exists d, dict_get k1 ds = Some (JDict d) /\ dict_get k2 d = None
  | ItemKey k => dict_get k di = None
  | Payments => dict_get "sales_payments" ds = None
  end.

(** The value of a field whose key is absent. *)
Definition default_cell (field : string) : cell :=
  if mem field ["outlet_name"; "register_name"; "payment_methods"]
  then CObj (JStr "")
  else if String.eqb field "payment_total" then CObj (JNum (NInt 0))
  else CNull.

(** The defaults with only the two name fields defaulting to the empty
    string and every other field to a missing entry. *)
Definition names_only_default (field : string) : cell :=
  if mem field ["outlet_name"; "register_name"] then CObj (JStr "") else CNull.

Section Shapes.
Context `{RT : Runtime}.

(** One round of the numeric loop on one row. *)
Definition coerce_row (r : row) (col : string) : row :=
  row_set col (to_numeric_coerce (row_get col r)) r.

Definition numeric_row (r : row) : row := foldl coerce_row r numeric_columns.

(** A column after [pd.to_datetime], given what the parser returned. *)
Definition dated (col : string) (ts : list (option Z)) (rs : list row)
  : list row :=
  set_cells col (fill_times (map (row_get col) rs) ts) rs.

(** The row of the result for the row [r] of the assembled table, given its
    two converted dates. *)
Definition final_row (c1 c2 : cell) (r : row) : row :=
  numeric_row (row_set "created_at" c2 (row_set "sales_date_time" c1 r)).

(** What the result holds in column [k] for the value [v] of the dict
    display, when [k] is no date column. *)
Definition output_cell (k : string) (v : json) : cell :=
  if mem k numeric_columns then to_numeric_coerce (cell_of v) else cell_of v.

(** A row [r] of the result against the dict [rec] it was built from. *)
Definition finished (rec : list (string * json)) (r : row) : Prop :=
  map fst r = FIELDS /\
  (forall k, mem k date_columns = false ->
     row_get k r = output_cell k (default JNull (dict_get k rec))) /\
  (forall k, mem k date_columns = true ->
     cell_of (default JNull (dict_get k rec)) = CNull -> row_get k r = CNull).


End Shapes.

(** ** Pages

    The fetcher against the pages the API serves, in the words of its
    description: accumulation stops at the first page that is empty or holds
    fewer records than the page size. *)

Definition stops (limit : Z) (page : list json) : bool :=
  match page with
  | [] => true
  | _ => Z.ltb (Z.of_nat (length page)) limit
  end.

(** The records accumulated from the pages; past the last page the API
    serves empty pages. *)
Fixpoint accumulated (limit : Z) (pages : list (list json)) : list json :=
  match pages with
  | [] => []
  | page :: pages' =>
      if stops limit page then page else page ++ accumulated limit pages'
  end.

(** The number of requests it takes. *)
Fixpoint rounds (limit : Z) (pages : list (list json)) : nat :=
  match pages with
  | [] => 1
  | page :: pages' => if stops limit page then 1 else S (rounds limit pages')
  end.

Definition page_request (token start_date end_date : string)
    (limit offset : Z) : request :=
  {| rq_token := token; rq_from := start_date; rq_to := end_date;
     rq_limit := limit; rq_offset := offset |}.

(** The first [n] requests of a fetch that starts at [offset]. *)
Fixpoint requests_from (token start_date end_date : string)
    (limit offset : Z) (n : nat) : list request :=
  match n with
  | O => []
  | S n' =>
      page_request token start_date end_date limit offset
        :: requests_from token start_date end_date limit (offset + limit) n'
  end.

(** After the requests [history], the API answers the requests of a fetch
    with the pages [pages] in turn, as bare lists or under ['data'], and with
    empty pages after them. *)
Definition serves (server : list request -> request -> response)
    (history : list request) (token start_date end_date : string)
    (limit offset : Z) (pages : list (list json)) : Prop :=
  forall n : nat,
    exists data,
      server (history ++ requests_from token start_date end_date limit offset n)
             (page_request token start_date end_date limit
                (offset + Z.of_nat n * limit))
      = Payload data /\
      batch_of data = JList (nth n pages []).

Definition with_sent (w : world) (rqs : list request) : world :=
  {| sent := sent w ++ rqs; files := files w; stdout := stdout w |}.

(** After the requests [history], the API answers the first requests of a
    fetch with the pages [pages] in turn; nothing is said of what it answers
    after them. *)
Definition serves_first_pages (server : list request -> request -> response)
    (history : list request) (token start_date end_date : string)
    (limit offset : Z) (pages : list (list json)) : Prop :=
  forall n : nat,
    (n < length pages)%nat ->
    exists data,
      server (history ++ requests_from token start_date end_date limit offset n)
             (page_request token start_date end_date limit
                (offset + Z.of_nat n * limit))
      = Payload data /\
      batch_of data = JList (nth n pages []).



(** The keys the flattener reads in a sale, and in an item. *)
Definition sale_keys : list string :=
  [ "id"; "outlet_id"; "outlet"; "register_id"; "register"; "staff_id";
    "customer_id"; "order_no"; "sale_type"; "order_status"; "receipt_no";
    "sales_date_time"; "sales_details"; "sales_payments" ].

Definition item_keys : list string :=
  [ "id"; "product_id"; "product_name"; "quantity"; "price_inc_vat_per_item";
    "vat_rate"; "vat_rate_id"; "line_total_after_line_discount";
    "line_subtotal_after_line_discount"; "line_vat_after_line_discount";
    "line_total_after_discount"; "line_subtotal_after_discount";
    "line_vat_after_discount"; "has_discount"; "discount_amount";
    "discount_is_percentage"; "discount_id"; "item_notes"; "sequence_no";
    "created_at" ].

(** A missing entry, a number or a bool: what a numeric column may hold. *)
Definition is_numeric_cell (c : cell) : bool :=
  match c with
  | CNull => true
  | CObj (JNum _) => true
  | CObj (JBool _) => true
  | _ => false
  end.


(** The non-missing entries of a column of the assembled table, in the
    order of the rows: what [pd.to_datetime] is given. *)
Definition column_values (col : string)
    (records : list (list (string * json))) : list json :=
  omap present
    (map (fun rec => cell_of (default JNull (dict_get col rec))) records).

(** ** More servers and inputs for the examples *)

(** An API whose first page is full and whose next answer is an error
    status. *)
Definition fifty_then_down (history : list request) (rq : request) : response :=
  if Z.eqb (rq_offset rq) 0 then Payload (JList fifty_sales) else HttpFailure.

(** An API that answers every request with a full page. *)
Definition always_full_server (history : list request) (rq : request)
  : response :=
  Payload (JList fifty_sales).

(** An API without a sale. *)
Definition empty_server (history : list request) (rq : request) : response :=
  Payload (JList []).

(** The scenario's sale with a timestamp that is no date. *)
Definition misdated_sale : json :=
  JDict (("sales_date_time", JStr "yesterday") :: scenario_entries).

(** A sale whose details are null, and one with a line item whose payments
    are the empty list. *)
Definition null_details_entries : list (string * json) :=
  [ ("id", JNum (NInt 5)); ("sales_details", JNull) ].

Definition list_payments_entries : list (string * json) :=
  [ ("id", JNum (NInt 6));
    ("sales_details", JDict scenario_details);
    ("sales_payments", JList []) ].

(** The environment [e] on another day. *)
Definition on_day (e : env) (t : date) : env :=
  {| FOOD_TOKEN := FOOD_TOKEN e; BAR_TOKEN := BAR_TOKEN e;
     BASE_DIR := BASE_DIR e; today := t; arg_date := arg_date e |}.


(** The environment of a backfill: the date is given on the command line. *)
Definition backfill_env : env :=
  {| FOOD_TOKEN := Some "food-token";
     BAR_TOKEN := Some "bar-token";
     BASE_DIR := "/repo";
     today := {| year := 2024; month := 6; day := 30 |};
     arg_date := Some "2024-03-01" |}.

(** An API whose first page is full and whose next answer is a dict without
    a ['data'] key. *)
Definition fifty_then_no_data (history : list request) (rq : request)
  : response :=
  if Z.eqb (rq_offset rq) 0 then Payload (JList fifty_sales)
  else Payload (JDict [ ("message", JStr "no more") ]).

(** * Properties *)

(** ** The exception monad and the loops *)

Lemma bind_Ok {A B} (m : result A) (f : A -> result B) (b : B) :
  m ≫= f = Ok b <-> exists a, m = Ok a /\ f a = Ok b.
Proof.
  destruct m as [a|e]; simpl; split.
  - eauto.
  - intros (a' & [= <-] & H). exact H.
  - discriminate.
  - intros (a' & [=] & _).
Qed.

Ltac bind_inv H :=
  let a := fresh "a" in
  let Ha := fresh "H" a in
  apply bind_Ok in H; destruct H as (a & Ha & H).

Tactic Notation "bind_open" hyp(H) "as" ident(a) ident(Ha) :=
  apply bind_Ok in H; destruct H as (a & Ha & H).

Lemma for_each_Ok {A B} (f : A -> result B) (xs : list A) (ys : list B) :
  for_each f xs = Ok ys <-> Forall2 (fun x y => f x = Ok y) xs ys.
Proof.
  revert ys. induction xs as [|x xs IH]; intros ys; simpl.
  - split.
    + intros [= <-]. constructor.
    + intros H. inversion H. reflexivity.
  - split.
    + intros H. bind_inv H. bind_inv H. injection H as <-.
      constructor; [assumption|]. apply IH. assumption.
    + intros H. inversion H as [|x' y xs' ys' Hy Hys]; subst.
      rewrite Hy. simpl. apply IH in Hys. rewrite Hys. reflexivity.
Qed.

Lemma for_each_length {A B} (f : A -> result B) xs ys :
  for_each f xs = Ok ys -> length ys = length xs.
Proof.
  intros H. apply for_each_Ok in H. symmetry. exact (Forall2_length _ _ _ H).
Qed.

Lemma for_each_app {A B} (f : A -> result B) xs1 xs2 :
  for_each f (xs1 ++ xs2) =
  ys1 ← for_each f xs1; ys2 ← for_each f xs2; Ok (ys1 ++ ys2).
Proof.
  induction xs1 as [|x xs1 IH]; simpl.
  - destruct (for_each f xs2); reflexivity.
  - destruct (f x) as [y|e]; simpl; [|reflexivity].
    rewrite IH. destruct (for_each f xs1) as [ys1|e]; simpl; [|reflexivity].
    destruct (for_each f xs2); reflexivity.
Qed.

Lemma for_each_ext {A B} (f g : A -> result B) xs :
  (forall x, f x = g x) -> for_each f xs = for_each g xs.
Proof.
  intros H. induction xs as [|x xs IH]; simpl; [reflexivity|].
  rewrite H, IH. reflexivity.
Qed.

(** ** Dicts and rows *)

Lemma dict_get_set (k k' : string) v kvs :
  dict_get k (dict_set k' v kvs) =
  if String.eqb k k' then Some v else dict_get k kvs.
Proof.
  induction kvs as [|[k0 v0] kvs IH]; simpl.
  - destruct (String.eqb k k'); reflexivity.
  - destruct (String.eqb_spec k' k0) as [->|Hne]; simpl.
    + destruct (String.eqb k k0); reflexivity.
    + rewrite IH. destruct (String.eqb_spec k k0) as [->|Hne'].
      * destruct (String.eqb_spec k0 k') as [->|_]; [congruence|reflexivity].
      * reflexivity.
Qed.

Lemma row_get_set (k k' : string) c (r : row) :
  row_get k (row_set k' c r) = if String.eqb k k' then c else row_get k r.
Proof.
  induction r as [|[k0 c0] r IH]; simpl.
  - destruct (String.eqb k k'); reflexivity.
  - destruct (String.eqb_spec k' k0) as [->|Hne]; simpl.
    + destruct (String.eqb k k0); reflexivity.
    + rewrite IH. destruct (String.eqb_spec k k0) as [->|Hne'].
      * destruct (String.eqb_spec k0 k') as [->|_]; [congruence|reflexivity].
      * reflexivity.
Qed.

Lemma mem_In (k : string) ks : mem k ks = true <-> In k ks.
Proof.
  unfold mem. rewrite existsb_exists. split.
  - intros (x & Hx & Heq). apply String.eqb_eq in Heq. subst. exact Hx.
  - intros H. exists k. split; [exact H|apply String.eqb_refl].
Qed.

Lemma row_set_keys (k : string) c (r : row) :
  mem k (map fst r) = true -> map fst (row_set k c r) = map fst r.
Proof.
  induction r as [|[k0 c0] r IH]; simpl; [discriminate|].
  destruct (String.eqb_spec k k0) as [->|Hne]; simpl.
  - reflexivity.
  - intros H. rewrite IH; [reflexivity|exact H].
Qed.

Lemma row_get_cells (k : string) (rec : list (string * json)) :
  row_get k (map (prod_map id cell_of) rec) =
  cell_of (default JNull (dict_get k rec)).
Proof.
  induction rec as [|[k0 v0] rec IH]; simpl; [reflexivity|].
  destruct (String.eqb k k0); [reflexivity|exact IH].
Qed.

Lemma align_self (r : row) : NoDup (map fst r) -> align (map fst r) r = r.
Proof.
  unfold align. induction r as [|[k c] r IH]; simpl; [reflexivity|].
  intros Hnd. apply NoDup_cons in Hnd as [Hk Hnd].
  rewrite String.eqb_refl. f_equal.
  etransitivity; [|exact (IH Hnd)].
  apply map_ext_in. intros k' Hk'. simpl.
  destruct (String.eqb_spec k' k) as [->|_]; [|reflexivity].
  exfalso. apply Hk. apply list_elem_of_In. exact Hk'.
Qed.


Lemma set_cells_map col (f : row -> cell) rs :
  set_cells col (map f rs) rs = map (fun r => row_set col (f r) r) rs.
Proof.
  induction rs as [|r rs IH]; simpl; [reflexivity|]. f_equal. exact IH.
Qed.

Lemma merge_keys_mem col cols :
  mem col cols = true -> merge_keys cols [col] = cols.
Proof.
  intros H. unfold merge_keys. simpl. rewrite H. simpl. apply app_nil_r.
Qed.

Section Flattening.
Context `{RT : Runtime}.

Lemma convert_numeric_rows df col :
  mem col (columns df) = true ->
  convert_numeric df col =
  {| columns := columns df; rows := map (fun r => coerce_row r col) (rows df) |}.
Proof.
  intros H. unfold convert_numeric, set_column. rewrite H.
  rewrite merge_keys_mem by exact H.
  rewrite map_map. rewrite (set_cells_map col (fun r => to_numeric_coerce (row_get col r))).
  reflexivity.
Qed.

Lemma foldl_convert_numeric cs : forall df,
  (forall c, In c cs -> mem c (columns df) = true) ->
  foldl convert_numeric df cs =
  {| columns := columns df;
     rows := map (fun r => foldl coerce_row r cs) (rows df) |}.
Proof.
  induction cs as [|c cs IH]; intros df Hin; simpl.
  - rewrite map_id. destruct df; reflexivity.
  - rewrite convert_numeric_rows by (apply Hin; left; reflexivity).
    rewrite IH; simpl.
    + rewrite map_map. reflexivity.
    + intros c' Hc'. apply Hin. right. exact Hc'.
Qed.

Lemma row_get_foldl_coerce cs : forall r k,
  NoDup cs ->
  row_get k (foldl coerce_row r cs) =
  if mem k cs then to_numeric_coerce (row_get k r) else row_get k r.
Proof.
  induction cs as [|c cs IH]; intros r k Hnd; simpl; [reflexivity|].
  apply NoDup_cons in Hnd as [Hc Hnd].
  rewrite IH by exact Hnd. unfold coerce_row at 1 2. rewrite row_get_set.
  destruct (String.eqb_spec k c) as [->|Hne]; simpl.
  - destruct (mem c cs) eqn:Hm; [|reflexivity].
    exfalso. apply Hc. apply list_elem_of_In. apply mem_In. exact Hm.
  - reflexivity.
Qed.

Lemma keys_foldl_coerce cs : forall r,
  (forall c, In c cs -> mem c (map fst r) = true) ->
  map fst (foldl coerce_row r cs) = map fst r.
Proof.
  induction cs as [|c cs IH]; intros r Hin; simpl; [reflexivity|].
  assert (Hk : map fst (coerce_row r c) = map fst r).
  { apply row_set_keys. apply Hin. left. reflexivity. }
  rewrite IH; [exact Hk|].
  intros c' Hc'. rewrite Hk. apply Hin. right. exact Hc'.
Qed.

Lemma numeric_columns_NoDup : NoDup numeric_columns.
Proof. apply (bool_decide_unpack _). vm_compute. reflexivity. Qed.

Lemma FIELDS_NoDup : NoDup FIELDS.
Proof. apply (bool_decide_unpack _). vm_compute. reflexivity. Qed.

(** The converted column, row by row: the entry is replaced, and a missing
    entry stays missing. *)
Lemma dated_Forall2 col rs : forall ts,
  Forall2 (fun r r' => exists c, r' = row_set col c r /\
                                 (row_get col r = CNull -> c = CNull))
          rs (dated col ts rs).
Proof.
  unfold dated. induction rs as [|r rs IH]; intros ts; simpl; [constructor|].
  destruct (row_get col r) eqn:Hc; simpl; (constructor; [|apply IH]).
  - exists CNull. split; [reflexivity|intros _; reflexivity].
  - eexists. split; [reflexivity|congruence].
  - eexists. split; [reflexivity|congruence].
Qed.

Lemma dated_other col k rs ts :
  k <> col -> map (row_get k) (dated col ts rs) = map (row_get k) rs.
Proof.
  intros Hne. pose proof (dated_Forall2 col rs ts) as H.
  induction H as [|r r' rs rs' (c & -> & _) _ IH]; simpl; [reflexivity|].
  rewrite row_get_set. destruct (String.eqb_spec k col); [contradiction|].
  f_equal. exact IH.
Qed.

Lemma convert_datetime_fields col df :
  mem col (columns df) = true ->
  convert_datetime col df =
  match pd_parse_datetimes (omap present (map (row_get col) (rows df))) with
  | Ok ts => Ok {| columns := columns df; rows := dated col ts (rows df) |}
  | Raise e => Raise e
  end.
Proof.
  intros H. unfold convert_datetime, get_column, pd_to_datetime, set_column.
  rewrite H. cbn [mbind result_bind].
  destruct (pd_parse_datetimes _) as [ts|]; cbn [mbind result_bind];
    [|reflexivity].
  rewrite merge_keys_mem by exact H. reflexivity.
Qed.

Lemma numeric_columns_in_FIELDS c : In c numeric_columns -> mem c FIELDS = true.
Proof.
  assert (H : Forall (fun c => mem c FIELDS = true) numeric_columns)
    by (repeat constructor).
  intros Hc. apply list_elem_of_In in Hc. exact (proj1 (Forall_forall _ _) H c Hc).
Qed.

(** [normalise] on a table that has the fixed columns. *)
Lemma normalise_fields df :
  columns df = FIELDS ->
  normalise df =
  match pd_parse_datetimes
          (omap present (map (row_get "sales_date_time") (rows df))) with
  | Raise e => Raise e
  | Ok t1 =>
      match pd_parse_datetimes
              (omap present (map (row_get "created_at") (rows df))) with
      | Raise e => Raise e
      | Ok t2 =>
          Ok {| columns := FIELDS;
                rows := map numeric_row
                          (dated "created_at" t2
                             (dated "sales_date_time" t1 (rows df))) |}
      end
  end.
Proof.
  intros Hcols. unfold normalise.
  rewrite convert_datetime_fields by (rewrite Hcols; reflexivity).
  destruct (pd_parse_datetimes _) as [t1|]; cbn [mbind result_bind];
    [|reflexivity].
  rewrite convert_datetime_fields by (cbn [columns]; rewrite Hcols; reflexivity).
  cbn [rows columns]. rewrite dated_other by discriminate.
  destruct (pd_parse_datetimes _) as [t2|]; cbn [mbind result_bind];
    [|reflexivity].
  rewrite foldl_convert_numeric.
  - cbn [rows columns]. rewrite Hcols. reflexivity.
  - intros c Hc. cbn [columns]. rewrite Hcols.
    apply numeric_columns_in_FIELDS. exact Hc.
Qed.

Lemma Forall2_compose {A B C} (P : A -> B -> Prop) (Q : B -> C -> Prop)
    (R : A -> C -> Prop) l k m :
  (forall x y z, P x y -> Q y z -> R x z) ->
  Forall2 P l k -> Forall2 Q k m -> Forall2 R l m.
Proof.
  intros HR H. revert m. induction H as [|x y l k Hxy _ IH]; intros m Hm.
  - inversion Hm. constructor.
  - inversion Hm as [|y' z k' m' Hyz Hkm]; subst.
    constructor; [eapply HR; eassumption|apply IH; assumption].
Qed.

(** What [normalise] returns, row by row. *)
Lemma normalise_rows df df' :
  columns df = FIELDS ->
  normalise df = Ok df' ->
  columns df' = FIELDS /\
  Forall2 (fun r r' => exists c1 c2,
             r' = final_row c1 c2 r /\
             (row_get "sales_date_time" r = CNull -> c1 = CNull) /\
             (row_get "created_at" r = CNull -> c2 = CNull))
          (rows df) (rows df').
Proof.
  intros Hcols H. rewrite normalise_fields in H by exact Hcols.
  destruct (pd_parse_datetimes _) as [t1|]; [|discriminate].
  destruct (pd_parse_datetimes _) as [t2|]; [|discriminate].
  injection H as <-. split; [reflexivity|]. cbn [rows].
  apply Forall2_fmap_r.
  eapply Forall2_compose;
    [|apply (dated_Forall2 "sales_date_time" (rows df) t1)
     |apply (dated_Forall2 "created_at" _ t2)].
  intros r r1 r2 (c1 & -> & Hc1) (c2 & -> & Hc2).
  exists c1, c2. split; [reflexivity|]. split; [exact Hc1|].
  intros Hnull. apply Hc2. rewrite row_get_set. exact Hnull.
Qed.

(** ** Building the rows *)

Lemma dict_display_keys es rec :
  dict_display es = Ok rec -> map fst rec = map fst es.
Proof.
  unfold dict_display. intros H. apply for_each_Ok in H.
  induction H as [|[k e] [k' v] es rec Hkv _ IH]; simpl; [reflexivity|].
  f_equal; [|exact IH]. simpl in Hkv. destruct e; simpl in Hkv; congruence.
Qed.

Lemma dict_display_get es rec k e :
  dict_display es = Ok rec -> entry k es = Some e ->
  exists v, e = Ok v /\ dict_get k rec = Some v.
Proof.
  unfold dict_display. intros H. apply for_each_Ok in H.
  induction H as [|[k0 e0] [k' v] es rec Hkv _ IH]; simpl; [discriminate|].
  simpl in Hkv. destruct e0 as [v0|]; simpl in Hkv; [|discriminate].
  injection Hkv as <- <-.
  destruct (String.eqb k k0); [|exact IH].
  intros [= <-]. exists v0. split; reflexivity.
Qed.

Lemma item_row_Ok sale item rec :
  item_row sale item = Ok rec ->
  exists pm pt,
    payment_methods_of sale = Ok pm /\ payment_total_of sale = Ok pt /\
    dict_display (row_entries sale item pm pt) = Ok rec.
Proof.
  unfold item_row. intros H. bind_inv H. bind_inv H. eauto.
Qed.

Lemma item_row_keys sale item rec :
  item_row sale item = Ok rec -> map fst rec = FIELDS.
Proof.
  intros H. apply item_row_Ok in H as (pm & pt & _ & _ & H).
  apply dict_display_keys in H. exact H.
Qed.

(** The value a row holds under a key of the dict display. *)
Lemma item_row_get sale item rec k e :
  item_row sale item = Ok rec ->
  (forall pm pt, entry k (row_entries sale item pm pt) = Some e) ->
  e = Ok (default JNull (dict_get k rec)).
Proof.
  intros H He. apply item_row_Ok in H as (pm & pt & _ & _ & H).
  destruct (dict_display_get _ _ k e H (He pm pt)) as (v & -> & ->).
  reflexivity.
Qed.

Lemma sale_rows_Ok sale block :
  sale_rows sale = Ok block ->
  exists sales_items items,
    sales_items_of sale = Ok sales_items /\ py_iter sales_items = Ok items /\
    Forall2 (fun item rec => item_row sale item = Ok rec) items block.
Proof.
  unfold sale_rows. intros H. bind_inv H. bind_inv H.
  apply for_each_Ok in H. eauto.
Qed.

Lemma sale_rows_keys sale block :
  sale_rows sale = Ok block -> Forall (fun rec => map fst rec = FIELDS) block.
Proof.
  intros H. apply sale_rows_Ok in H as (si & items & _ & _ & H).
  induction H as [|item rec items block Hrow _ IH]; constructor;
    [eapply item_row_keys; eassumption|exact IH].
Qed.

(** ** The assembled table *)

Lemma foldl_merge_FIELDS (recs : list (list (string * json))) :
  Forall (fun rec => map fst rec = FIELDS) recs ->
  foldl (fun acc r => merge_keys acc (map fst r)) FIELDS recs = FIELDS.
Proof.
  induction 1 as [|rec recs Hk _ IH]; simpl; [reflexivity|].
  rewrite Hk. exact IH.
Qed.

Lemma make_frame_fields (recs : list (list (string * json))) :
  recs <> [] ->
  Forall (fun rec => map fst rec = FIELDS) recs ->
  make_frame recs =
  {| columns := FIELDS; rows := map (map (prod_map id cell_of)) recs |}.
Proof.
  intros Hne Hk. unfold make_frame.
  assert (Hcols : foldl (fun acc r => merge_keys acc (map fst r)) [] recs
                  = FIELDS).
  { destruct Hk as [|rec recs Hrec Hk]; [contradiction|]. simpl.
    rewrite Hrec. apply foldl_merge_FIELDS. exact Hk. }
  rewrite Hcols. f_equal. apply map_ext_in. intros rec Hin.
  assert (Hrec : map fst (map (prod_map id cell_of) rec) = FIELDS).
  { rewrite map_map. simpl.
    apply (proj1 (Forall_forall _ _) Hk). apply list_elem_of_In. exact Hin. }
  rewrite <- Hrec at 1. apply align_self. rewrite Hrec. exact FIELDS_NoDup.
Qed.

Lemma Forall2_with_l {A B} (P : A -> Prop) (Q : A -> B -> Prop) l k :
  Forall P l -> Forall2 Q l k -> Forall2 (fun x y => P x /\ Q x y) l k.
Proof.
  intros HP HQ. induction HQ as [|x y l k Hxy _ IH]; [constructor|].
  apply Forall_cons in HP as [Hx HP]. constructor; [split; assumption|].
  apply IH. exact HP.
Qed.

(** A list related to a concatenation splits into the related blocks. *)
Lemma Forall2_concat_inv {A B} (P : A -> B -> Prop) (bs : list (list A)) :
  forall k, Forall2 P (concat bs) k ->
  exists ks, k = concat ks /\ Forall2 (Forall2 P) bs ks.
Proof.
  induction bs as [|b bs IH]; intros k H; simpl in H.
  - apply Forall2_nil_inv_l in H as ->. exists []. split; [reflexivity|constructor].
  - apply Forall2_app_inv_l in H as (k1 & k2 & H1 & H2 & ->).
    destruct (IH k2 H2) as (ks & -> & Hks).
    exists (k1 :: ks). split; [reflexivity|]. constructor; assumption.
Qed.

Lemma mem_date_columns k :
  mem k date_columns = false -> k <> "sales_date_time" /\ k <> "created_at".
Proof.
  unfold mem, date_columns. simpl. intros H.
  destruct (String.eqb_spec k "sales_date_time"); [discriminate|].
  destruct (String.eqb_spec k "created_at"); [discriminate|].
  split; assumption.
Qed.

Lemma final_row_finished rec c1 c2 :
  map fst rec = FIELDS ->
  (row_get "sales_date_time" (map (prod_map id cell_of) rec) = CNull ->
   c1 = CNull) ->
  (row_get "created_at" (map (prod_map id cell_of) rec) = CNull ->
   c2 = CNull) ->
  finished rec (final_row c1 c2 (map (prod_map id cell_of) rec)).
Proof.
  intros Hk H1 H2. unfold finished, final_row, numeric_row.
  set (r0 := map (prod_map id cell_of) rec) in *.
  assert (Hr0 : map fst r0 = FIELDS).
  { unfold r0. rewrite map_map. exact Hk. }
  assert (Hr1 : map fst (row_set "created_at" c2
                           (row_set "sales_date_time" c1 r0)) = FIELDS).
  { rewrite !row_set_keys; rewrite ?row_set_keys; rewrite ?Hr0; reflexivity. }
  split; [|split].
  - rewrite keys_foldl_coerce; [exact Hr1|].
    intros c Hc. rewrite Hr1. apply numeric_columns_in_FIELDS. exact Hc.
  - intros k Hd. apply mem_date_columns in Hd as [Hs Hc].
    rewrite row_get_foldl_coerce by exact numeric_columns_NoDup.
    rewrite !row_get_set.
    destruct (String.eqb_spec k "created_at"); [contradiction|].
    destruct (String.eqb_spec k "sales_date_time"); [contradiction|].
    unfold output_cell, r0. rewrite row_get_cells. reflexivity.
  - intros k Hd Hnull.
    rewrite row_get_foldl_coerce by exact numeric_columns_NoDup.
    rewrite !row_get_set. unfold r0 in H1, H2. rewrite row_get_cells in H1, H2.
    unfold mem, date_columns in Hd. simpl in Hd.
    destruct (String.eqb_spec k "sales_date_time") as [Heq|_].
    + subst k. simpl. apply H1. exact Hnull.
    + destruct (String.eqb_spec k "created_at") as [Heq|_]; [|discriminate].
      subst k. simpl. apply H2. exact Hnull.
Qed.

Lemma convert_list sales :
  convert_sales_api_to_dataframe (JList sales) =
  match sales with
  | [] => Raise (ValueError "No sales data found")
  | _ => blocks ← for_each sale_rows sales;
         normalise (make_frame (concat blocks))
  end.
Proof. destruct sales; reflexivity. Qed.

(** The result of the flattener on a list of sales: the rows of the sales
    in order, each finished from the dict built for one item. *)
Lemma convert_list_Ok sales df :
  convert_sales_api_to_dataframe (JList sales) = Ok df ->
  exists blocks,
    for_each sale_rows sales = Ok blocks /\
    columns df = FIELDS /\
    Forall2 finished (concat blocks) (rows df).
Proof.
  rewrite convert_list. intros H.
  destruct sales as [|sale sales]; [discriminate|].
  bind_inv H. rename a into blocks. exists blocks. split; [exact Ha|].
  assert (Hkeys : Forall (fun rec => map fst rec = FIELDS) (concat blocks)).
  { apply for_each_Ok in Ha. clear H.
    induction Ha as [|s b ss bs Hb _ IH]; simpl; [constructor|].
    apply Forall_app. split; [eapply sale_rows_keys; eassumption|exact IH]. }
  destruct (concat blocks) as [|rec recs] eqn:Hrecs; [discriminate|].
  rewrite make_frame_fields in H by (congruence || exact Hkeys).
  apply normalise_rows in H as [Hcols Hrows]; [|reflexivity].
  split; [exact Hcols|]. cbn [rows] in Hrows.
  apply Forall2_fmap_l in Hrows.
  eapply Forall2_impl; [exact (Forall2_with_l _ _ _ _ Hkeys Hrows)|].
  intros rec' r [Hk (c1 & c2 & -> & H1 & H2)].
  apply final_row_finished; assumption.
Qed.

(** The rows of the result, sale by sale and item by item. *)
Lemma convert_blocks sales df :
  convert_sales_api_to_dataframe (JList sales) = Ok df ->
  exists blocks : list (list row),
    rows df = concat blocks /\
    Forall2 (fun sale block =>
               exists sales_items items,
                 sales_items_of sale = Ok sales_items /\
                 py_iter sales_items = Ok items /\
                 Forall2 (fun item r =>
                            exists rec, item_row sale item = Ok rec /\
                                        finished rec r)
                         items block)
            sales blocks.
Proof.
  intros H. apply convert_list_Ok in H as (recs & Hrecs & _ & Hrows).
  apply Forall2_concat_inv in Hrows as (blocks & -> & Hblocks).
  exists blocks. split; [reflexivity|].
  apply for_each_Ok in Hrecs.
  eapply Forall2_compose; [|exact Hrecs|exact Hblocks].
  intros sale recs_of_sale block Hsale Hfin.
  apply sale_rows_Ok in Hsale as (si & items & Hsi & Hit & Hitems).
  exists si, items. split; [exact Hsi|]. split; [exact Hit|].
  eapply Forall2_compose; [|exact Hitems|exact Hfin].
  intros item rec r Hrec Hr. exists rec. split; assumption.
Qed.

(** ** The flattener: counts, shapes and failures *)





(** C5.  A dict whose ['data'] entry is the list [L] is flattened as the
    bare list [L] is: the two results are equal, rows or exception. *)
Theorem wrapped_list_same kvs L :
  dict_get "data" kvs = Some (JList L) ->
  convert_sales_api_to_dataframe (JDict kvs) =
  convert_sales_api_to_dataframe (JList L).
Proof.
  intros H. unfold convert_sales_api_to_dataframe. rewrite H. reflexivity.
Qed.

(** C6.  The empty list raises the "no sales data" error, and returns no
    table; an input that is neither a list nor a dict with a ['data'] key
    raises the "expected dict or list" error. *)
Theorem empty_and_malformed_input :
  convert_sales_api_to_dataframe (JList []) =
    Raise (ValueError "No sales data found") /\
  (forall json_data,
     (forall l, json_data <> JList l) ->
     (forall kvs v, json_data = JDict kvs -> dict_get "data" kvs <> Some v) ->
     convert_sales_api_to_dataframe json_data =
       Raise (ValueError "Expected dict with 'data' key or list of sales")).
Proof.
  split; [reflexivity|].
  intros json_data Hlist Hdict. unfold convert_sales_api_to_dataframe.
  destruct json_data as [| | | |l|kvs]; try reflexivity.
  - exfalso. exact (Hlist l eq_refl).
  - destruct (dict_get "data" kvs) as [v|] eqn:Hd; [|reflexivity].
    exfalso. exact (Hdict kvs v eq_refl Hd).
Qed.

(** ** Payments *)



Lemma output_cell_payment_total pt :
  output_cell "payment_total" (JNum pt) = cell_of (JNum pt).
Proof.
  unfold output_cell. replace (mem "payment_total" numeric_columns) with true
    by reflexivity.
  destruct pt as [z|x]; [reflexivity|]. simpl.
  destruct (float_is_nan x); reflexivity.
Qed.


(** ** Sales without line items *)

Lemma convert_list_app pre sale post :
  convert_sales_api_to_dataframe (JList (pre ++ sale :: post)) =
  blocks ← for_each sale_rows (pre ++ sale :: post);
  normalise (make_frame (concat blocks)).
Proof. destruct pre; reflexivity. Qed.

(** C9.  A sale whose ['sales_details'] key is absent, or whose details
    have no ['sales_items'] or an empty list of them, contributes no row
    whatever its payment data is, and the result of the flattener, rows or
    exception, is the same for every value [p] put under its
    ['sales_payments']: the payment data of such a sale is never read. *)
Theorem no_items_payments_unread ds p pre post :
  (dict_get "sales_details" ds = None \/
   exists sd, dict_get "sales_details" ds = Some (JDict sd) /\
              (dict_get "sales_items" sd = None \/
               dict_get "sales_items" sd = Some (JList []))) ->
  sale_rows (JDict (dict_set "sales_payments" p ds)) = Ok [] /\
  convert_sales_api_to_dataframe
    (JList (pre ++ JDict (dict_set "sales_payments" p ds) :: post)) =
  convert_sales_api_to_dataframe (JList (pre ++ JDict ds :: post)).
Proof.
  intros Hno.
  assert (Hrows : forall ds', dict_get "sales_details" ds' =
                              dict_get "sales_details" ds ->
                              sale_rows (JDict ds') = Ok []).
  { intros ds' Heq. unfold sale_rows, sales_items_of, py_get.
    cbn [mbind result_bind]. rewrite Heq.
    destruct Hno as [->|(sd & -> & [Hsd|Hsd])]; simpl; try rewrite Hsd;
      reflexivity. }
  assert (H1 : sale_rows (JDict (dict_set "sales_payments" p ds)) = Ok []).
  { apply Hrows. rewrite dict_get_set. reflexivity. }
  split; [exact H1|].
  rewrite !convert_list_app, !for_each_app.
  cbn [for_each]. rewrite H1, (Hrows ds eq_refl). reflexivity.
Qed.

(** ** Order *)





(** ** The field set and the defaults *)

Lemma sources_cover : map fst sources = FIELDS.
Proof. reflexivity. Qed.

Lemma finished_rows sales df :
  convert_sales_api_to_dataframe (JList sales) = Ok df ->
  Forall (fun r => map fst r = FIELDS) (rows df).
Proof.
  intros H. apply convert_list_Ok in H as (recs0 & _ & _ & Hrows).
  induction Hrows as [|rec r recs rs (Hk & _) _ IH];
    [apply Forall_nil; exact I|apply Forall_cons; split; assumption].
Qed.

(** The value read for a field whose key is absent. *)
Ltac absent_value Hv Habs :=
  unfold py_get2, py_get in Hv; cbn [mbind result_bind] in Hv;
  simpl in Habs;
  first
    [ rewrite Habs in Hv
    | let d := fresh "d" in
      let Hd := fresh "Hd" in
      destruct Habs as [Habs|(d & Hd & Habs)];
      [ rewrite Habs in Hv
      | rewrite Hd in Hv; simpl in Hv; rewrite Habs in Hv ] ];
  simpl in Hv; injection Hv as <-.

Ltac absent_field Hdisp Hcell Hdate Habs :=
  match goal with
  | |- row_get ?f _ = _ =>
      let v := fresh "v" in
      let Hv := fresh "Hv" in
      let Hget := fresh "Hget" in
      destruct (dict_display_get _ _ f _ Hdisp eq_refl) as (v & Hv & Hget);
      absent_value Hv Habs;
      first
        [ rewrite (Hcell f) by reflexivity; rewrite Hget; reflexivity
        | apply (Hdate f); [reflexivity|rewrite Hget; reflexivity] ]
  end.

Lemma default_of_absent ds di rec r field src :
  item_row (JDict ds) (JDict di) = Ok rec ->
  finished rec r ->
  In (field, src) sources ->
  absent src ds di ->
  row_get field r = default_cell field.
Proof.
  intros Hrec (_ & Hcell & Hdate) Hin Habs.
  apply item_row_Ok in Hrec as (pm & pt & Hpm & Hpt & Hdisp).
  unfold sources in Hin. simpl in Hin.
  do 34 (destruct Hin as [Heq|Hin];
         [injection Heq as <- <-; absent_field Hdisp Hcell Hdate Habs|]).
  destruct Hin as [Heq|Hin].
  { injection Heq as <- <-. simpl in Habs.
    unfold payment_methods_of, py_get in Hpm. rewrite Habs in Hpm.
    injection Hpm as <-.
    destruct (dict_display_get _ _ "payment_methods" _ Hdisp eq_refl)
      as (v & [= <-] & Hget).
    rewrite (Hcell "payment_methods") by reflexivity. rewrite Hget.
    reflexivity. }
  destruct Hin as [Heq|Hin].
  { injection Heq as <- <-. simpl in Habs.
    unfold payment_total_of, py_get in Hpt. rewrite Habs in Hpt.
    injection Hpt as <-.
    destruct (dict_display_get _ _ "payment_total" _ Hdisp eq_refl)
      as (v & [= <-] & Hget).
    rewrite (Hcell "payment_total") by reflexivity. rewrite Hget.
    reflexivity. }
  do 3 (destruct Hin as [Heq|Hin];
        [injection Heq as <- <-; absent_field Hdisp Hcell Hdate Habs|]).
  destruct Hin.
Qed.

(** C8 (amended).  Every row of the flattener's result has the same fixed
    field set, whichever keys its sale and its item carry, and a field whose
    key is absent holds a fixed default: the empty string for [outlet_name],
    [register_name] and [payment_methods], the number 0 for [payment_total],
    a missing entry for every other field. *)
Theorem fixed_fields_and_defaults sales df :
  convert_sales_api_to_dataframe (JList sales) = Ok df ->
  columns df = FIELDS /\
  Forall (fun r => map fst r = FIELDS) (rows df) /\
  exists blocks : list (list row),
    rows df = concat blocks /\
    Forall2 (fun sale block =>
               exists sales_items items,
                 sales_items_of sale = Ok sales_items /\
                 py_iter sales_items = Ok items /\
                 Forall2 (fun item r =>
                            forall ds di field src,
                              sale = JDict ds -> item = JDict di ->
                              In (field, src) sources ->
                              absent src ds di ->
                              row_get field r = default_cell field)
                         items block)
            sales blocks.
Proof.
  intros H. split; [|split].
  - apply convert_list_Ok in H as (recs & _ & Hcols & _). exact Hcols.
  - eapply finished_rows. exact H.
  - apply convert_blocks in H as (blocks & Hrows & Hblocks).
    exists blocks. split; [exact Hrows|].
    eapply Forall2_impl; [exact Hblocks|]. clear.
    intros sale block (si & items & Hsi & Hit & Hitems).
    exists si, items. split; [exact Hsi|]. split; [exact Hit|].
    eapply Forall2_impl; [exact Hitems|].
    intros item r (rec & Hrec & Hfin) ds di field src -> -> Hin Habs.
    eapply default_of_absent; eassumption.
Qed.

(** ** Numeric fields *)

(** The numeric columns are the ten read from the item and the computed
    payment total. *)
Remark numeric_columns_split :
  numeric_columns = item_numeric_fields ++ ["payment_total"].
Proof. reflexivity. Qed.

(** A numeric field of an item that holds a string read as no number is a
    missing entry in the row of the item. *)
Lemma numeric_string_null sale item rec r f s :
  item_row sale item = Ok rec ->
  finished rec r ->
  In f item_numeric_fields ->
  py_get item f JNull = Ok (JStr s) ->
  pd_parse_number s = None ->
  row_get f r = CNull.
Proof.
  intros Hrec (_ & Hcell & _) Hin Hget Hparse.
  assert (Hval : forall k, In k item_numeric_fields ->
                 (forall pm pt, entry k (row_entries sale item pm pt)
                                = Some (py_get item k JNull)) /\
                 mem k date_columns = false /\
                 mem k numeric_columns = true).
  { intros k Hk. apply list_elem_of_In in Hk. revert k Hk. apply Forall_forall.
    repeat constructor. }
  destruct (Hval f Hin) as (Hentry & Hnd & Hnum).
  pose proof (item_row_get sale item rec f _ Hrec Hentry) as Hv.
  rewrite Hget in Hv. injection Hv as Hv.
  rewrite (Hcell f Hnd), <- Hv. unfold output_cell. rewrite Hnum. simpl.
  rewrite Hparse. reflexivity.
Qed.

Lemma py_get_set_other k k' v ds d :
  String.eqb k k' = false ->
  py_get (JDict (dict_set k' v ds)) k d = py_get (JDict ds) k d.
Proof. intros H. unfold py_get. rewrite dict_get_set, H. reflexivity. Qed.

Lemma py_get2_set_other k1 k2 k' v ds d :
  String.eqb k1 k' = false ->
  py_get2 (JDict (dict_set k' v ds)) k1 k2 d = py_get2 (JDict ds) k1 k2 d.
Proof. intros H. unfold py_get2. rewrite py_get_set_other by exact H. reflexivity. Qed.

Lemma py_get2_with_items ds sd items k2 d :
  dict_get "sales_details" ds = Some (JDict sd) ->
  String.eqb k2 "sales_items" = false ->
  py_get2 (with_items ds sd items) "sales_details" k2 d =
  py_get2 (JDict ds) "sales_details" k2 d.
Proof.
  intros Hsd Hk. unfold py_get2, with_items, py_get.
  rewrite dict_get_set, Hsd. cbn [String.eqb Ascii.eqb Bool.eqb].
  cbn [mbind result_bind default from_option id].
  rewrite dict_get_set, Hk. reflexivity.
Qed.

Lemma sales_items_with_items ds sd items :
  sales_items_of (with_items ds sd items) = Ok (JList items).
Proof.
  unfold sales_items_of, with_items, py_get. rewrite dict_get_set.
  cbn [String.eqb Ascii.eqb Bool.eqb mbind result_bind default from_option id].
  rewrite dict_get_set. reflexivity.
Qed.

(** The rows of a sale do not depend on the line items listed in it, but
    for the item they are built from. *)
Lemma item_row_with_items ds sd items item :
  dict_get "sales_details" ds = Some (JDict sd) ->
  item_row (with_items ds sd items) item = item_row (JDict ds) item.
Proof.
  intros Hsd. unfold item_row.
  assert (Hpm : payment_methods_of (with_items ds sd items)
                = payment_methods_of (JDict ds)).
  { unfold payment_methods_of, with_items.
    rewrite py_get_set_other by reflexivity. reflexivity. }
  assert (Hpt : payment_total_of (with_items ds sd items)
                = payment_total_of (JDict ds)).
  { unfold payment_total_of, with_items.
    rewrite py_get_set_other by reflexivity. reflexivity. }
  rewrite Hpm, Hpt.
  destruct (payment_methods_of (JDict ds)) as [pm|]; [|reflexivity].
  destruct (payment_total_of (JDict ds)) as [pt|]; [|reflexivity].
  cbn [mbind result_bind]. f_equal. unfold row_entries.
  rewrite !(py_get2_with_items ds sd items) by (exact Hsd || reflexivity).
  unfold with_items.
  rewrite !py_get_set_other by reflexivity.
  rewrite !py_get2_set_other by reflexivity.
  reflexivity.
Qed.

(** A dict display whose entries change under the keys outside [keep]
    only, and stay values there, is still built, with the same values under
    the keys of [keep]. *)
Lemma dict_display_change (keep : string -> bool) es es' :
  Forall2 (fun e e' => fst e' = fst e /\
                       if keep (fst e) then snd e' = snd e
                       else exists v, snd e' = Ok v) es es' ->
  forall rec, dict_display es = Ok rec ->
  exists rec', dict_display es' = Ok rec' /\
               forall k, keep k = true -> dict_get k rec' = dict_get k rec.
Proof.
  unfold dict_display.
  induction 1 as [|[k e] [k' e'] es es' [Hk He] _ IH]; intros rec Hrec.
  - exists rec. split; [exact Hrec|reflexivity].
  - simpl in Hk, He. subst k'. cbn [for_each fst snd] in *.
    bind_open Hrec as kv Hkv. bind_open Hkv as v Hv. injection Hkv as <-.
    bind_open Hrec as rest Hrest. injection Hrec as <-.
    destruct (IH rest Hrest) as (rest' & Hrest' & Hsame).
    rewrite Hrest'.
    destruct (keep k) eqn:Hkeep.
    + rewrite He, Hv. cbn [mbind result_bind]. eexists. split; [reflexivity|].
      intros k0 Hk0. simpl. destruct (String.eqb k0 k); [reflexivity|].
      apply Hsame. exact Hk0.
    + destruct He as (v' & ->). cbn [mbind result_bind].
      eexists. split; [reflexivity|].
      intros k0 Hk0. simpl. destruct (String.eqb_spec k0 k) as [->|_].
      * congruence.
      * apply Hsame. exact Hk0.
Qed.

(** Changing a numeric field of an item changes that field of its row and
    nothing else, and the row is built as before. *)
Lemma item_row_field_change sale di f v rec :
  In f item_numeric_fields ->
  item_row sale (JDict di) = Ok rec ->
  exists rec',
    item_row sale (JDict (dict_set f v di)) = Ok rec' /\
    forall k, String.eqb k f = false -> dict_get k rec' = dict_get k rec.
Proof.
  intros Hin Hrec. apply item_row_Ok in Hrec as (pm & pt & Hpm & Hpt & Hdisp).
  unfold item_row. rewrite Hpm, Hpt. cbn [mbind result_bind].
  destruct (dict_display_change (fun k => negb (String.eqb k f))
              (row_entries sale (JDict di) pm pt)
              (row_entries sale (JDict (dict_set f v di)) pm pt))
    with (rec := rec) as (rec' & Hrec' & Hsame).
  - unfold item_numeric_fields in Hin. simpl in Hin.
    repeat (destruct Hin as [<-|Hin];
            [unfold row_entries;
             repeat (apply Forall2_cons; split;
                     [split; [reflexivity|];
                      cbn [fst snd negb String.eqb Ascii.eqb Bool.eqb];
                      first [ reflexivity
                            | apply py_get_set_other; reflexivity
                            | eexists; reflexivity ]|]);
             apply Forall2_nil; exact I|]).
    destruct Hin.
  - exact Hdisp.
  - exists rec'. split; [exact Hrec'|].
    intros k Hk. apply Hsame. rewrite Hk. reflexivity.
Qed.

(** Whether [normalise] accepts the assembled table depends on its two date
    columns only. *)
Lemma normalise_frame_dates (recs recs' : list (list (string * json))) df :
  recs' <> [] ->
  Forall (fun rec => map fst rec = FIELDS) recs ->
  Forall (fun rec => map fst rec = FIELDS) recs' ->
  map (dict_get "sales_date_time") recs' = map (dict_get "sales_date_time") recs ->
  map (dict_get "created_at") recs' = map (dict_get "created_at") recs ->
  normalise (make_frame recs) = Ok df ->
  exists df', normalise (make_frame recs') = Ok df'.
Proof.
  intros Hne' Hk Hk' Hs Hc H.
  assert (Hne : recs <> []).
  { intros ->. destruct recs'; [contradiction|discriminate]. }
  rewrite make_frame_fields in H by assumption.
  rewrite normalise_fields in H by reflexivity. cbn [rows] in H.
  rewrite make_frame_fields by assumption.
  rewrite normalise_fields by reflexivity. cbn [rows].
  assert (Hcol : forall k,
            map (dict_get k) recs' = map (dict_get k) recs ->
            map (row_get k) (map (map (prod_map id cell_of)) recs') =
            map (row_get k) (map (map (prod_map id cell_of)) recs)).
  { intros k Heq. rewrite !map_map.
    erewrite (map_ext _ (fun rec => cell_of (default JNull (dict_get k rec))))
      by (intros; apply row_get_cells).
    symmetry.
    erewrite (map_ext _ (fun rec => cell_of (default JNull (dict_get k rec))))
      by (intros; apply row_get_cells).
    rewrite <- (map_map (dict_get k) (fun o => cell_of (default JNull o))).
    rewrite <- (map_map (dict_get k) (fun o => cell_of (default JNull o)) recs').
    rewrite Heq. reflexivity. }
  rewrite (Hcol _ Hs), (Hcol _ Hc).
  destruct (pd_parse_datetimes _) as [t1|]; [|discriminate].
  destruct (pd_parse_datetimes _) as [t2|]; [|discriminate].
  eexists. reflexivity.
Qed.

Lemma blocks_keys sales blocks :
  for_each sale_rows sales = Ok blocks ->
  Forall (fun rec => map fst rec = FIELDS) (concat blocks).
Proof.
  intros H. apply for_each_Ok in H.
  induction H as [|s b ss bs Hb _ IH]; simpl; [apply Forall_nil; exact I|].
  apply Forall_app. split; [eapply sale_rows_keys; eassumption|exact IH].
Qed.

Lemma dates_not_numeric f :
  In f item_numeric_fields ->
  String.eqb "sales_date_time" f = false /\ String.eqb "created_at" f = false.
Proof.
  intros Hf. apply list_elem_of_In in Hf. revert f Hf. apply Forall_forall.
  repeat constructor.
Qed.

(** Whatever value a numeric field of an item is given, the flattener
    accepts the sales if it accepted them before. *)
Lemma numeric_value_no_raise f v ds sd its1 di its2 pre post df :
  In f item_numeric_fields ->
  dict_get "sales_details" ds = Some (JDict sd) ->
  dict_get "sales_items" sd = Some (JList (its1 ++ JDict di :: its2)) ->
  convert_sales_api_to_dataframe (JList (pre ++ JDict ds :: post)) = Ok df ->
  exists df',
    convert_sales_api_to_dataframe
      (JList (pre ++ with_items ds sd (its1 ++ JDict (dict_set f v di) :: its2)
                  :: post)) = Ok df'.
Proof.
  intros Hf Hsd Hitems H.
  rewrite convert_list_app in H |- *.
  bind_open H as blocks Hblocks.
  pose proof (blocks_keys _ _ Hblocks) as Hkeys.
  rewrite for_each_app in Hblocks.
  bind_open Hblocks as bpre Hpre. bind_open Hblocks as btail Htail.
  injection Hblocks as <-. cbn [for_each] in Htail.
  bind_open Htail as bsale Hsale. bind_open Htail as bpost Hpost.
  injection Htail as <-.
  assert (Hsi : sales_items_of (JDict ds)
                = Ok (JList (its1 ++ JDict di :: its2))).
  { unfold sales_items_of, py_get. cbn [mbind result_bind].
    rewrite Hsd. simpl. rewrite Hitems. reflexivity. }
  unfold sale_rows in Hsale. rewrite Hsi in Hsale.
  cbn [mbind result_bind py_iter] in Hsale.
  rewrite for_each_app in Hsale.
  bind_open Hsale as b1 Hb1. bind_open Hsale as b2' Hb2.
  injection Hsale as <-. cbn [for_each] in Hb2.
  bind_open Hb2 as rec Hrec. bind_open Hb2 as b2 Hb2'. injection Hb2 as <-.
  destruct (item_row_field_change _ _ f v _ Hf Hrec) as (rec' & Hrec' & Hsame).
  assert (Hsale' :
    sale_rows (with_items ds sd (its1 ++ JDict (dict_set f v di) :: its2))
    = Ok (b1 ++ rec' :: b2)).
  { unfold sale_rows. rewrite sales_items_with_items.
    cbn [mbind result_bind py_iter].
    rewrite (for_each_ext _ (item_row (JDict ds)))
      by (intros; apply item_row_with_items; exact Hsd).
    rewrite for_each_app, Hb1. cbn [mbind result_bind for_each].
    rewrite Hrec', Hb2'. reflexivity. }
  assert (Hblocks' :
    for_each sale_rows
      (pre ++ with_items ds sd (its1 ++ JDict (dict_set f v di) :: its2) :: post)
    = Ok (bpre ++ (b1 ++ rec' :: b2) :: bpost)).
  { rewrite for_each_app, Hpre. cbn [mbind result_bind for_each].
    rewrite Hsale', Hpost. reflexivity. }
  rewrite Hblocks'. cbn [mbind result_bind].
  pose proof (blocks_keys _ _ Hblocks') as Hkeys'.
  destruct (dates_not_numeric f Hf) as [Hs Hc].
  rewrite concat_app, concat_cons in H, Hkeys, Hkeys' |- *.
  eapply normalise_frame_dates; [| exact Hkeys | exact Hkeys' | | | exact H].
  - destruct (concat bpre); simpl; [destruct b1; discriminate|discriminate].
  - rewrite !map_app, !map_cons, (Hsame _ Hs). reflexivity.
  - rewrite !map_app, !map_cons, (Hsame _ Hc). reflexivity.
Qed.

(** The payment total of a row is the number the payment sum computed. *)
Lemma payment_total_cell sale item rec r :
  item_row sale item = Ok rec ->
  finished rec r ->
  exists pt, payment_total_of sale = Ok pt /\
             row_get "payment_total" r = cell_of (JNum pt).
Proof.
  intros Hrec (_ & Hcell & _).
  apply item_row_Ok in Hrec as (pm & pt & _ & Hpt & Hdisp).
  exists pt. split; [exact Hpt|].
  destruct (dict_display_get _ _ "payment_total" _ Hdisp eq_refl)
    as (v & [= <-] & Hget).
  rewrite (Hcell "payment_total") by reflexivity.
  rewrite Hget. apply output_cell_payment_total.
Qed.

(** C2 (amended).  For each of the ten numeric fields read from the item, a
    value that is a string read as no number is a missing entry in the row
    of the item, and the payment total of the row is the number the payment
    sum computed, never a string; and whatever value a numeric field of an
    item is given, the flattener accepts the sales if it accepted them
    before: the value does not make it raise. *)
Theorem numeric_strings_become_null :
  (forall sales df,
     convert_sales_api_to_dataframe (JList sales) = Ok df ->
     exists blocks : list (list row),
       rows df = concat blocks /\
       Forall2 (fun sale block =>
                  exists sales_items items,
                    sales_items_of sale = Ok sales_items /\
                    py_iter sales_items = Ok items /\
                    Forall2 (fun item r =>
                               (forall f s,
                                  In f item_numeric_fields ->
                                  py_get item f JNull = Ok (JStr s) ->
                                  pd_parse_number s = None ->
                                  row_get f r = CNull) /\
                               exists pt,
                                 payment_total_of sale = Ok pt /\
                                 row_get "payment_total" r = cell_of (JNum pt))
                            items block)
               sales blocks) /\
  (forall f v ds sd its1 di its2 pre post df,
     In f item_numeric_fields ->
     dict_get "sales_details" ds = Some (JDict sd) ->
     dict_get "sales_items" sd = Some (JList (its1 ++ JDict di :: its2)) ->
     convert_sales_api_to_dataframe (JList (pre ++ JDict ds :: post)) = Ok df ->
     exists df',
       convert_sales_api_to_dataframe
         (JList (pre ++ with_items ds sd
                          (its1 ++ JDict (dict_set f v di) :: its2)
                     :: post)) = Ok df').
Proof.
  split; [|exact numeric_value_no_raise].
  intros sales df H. apply convert_blocks in H as (blocks & Hrows & Hblocks).
  exists blocks. split; [exact Hrows|].
  eapply Forall2_impl; [exact Hblocks|]. clear.
  intros sale block (si & items & Hsi & Hit & Hitems).
  exists si, items. split; [exact Hsi|]. split; [exact Hit|].
  eapply Forall2_impl; [exact Hitems|].
  intros item r (rec & Hrec & Hfin). split.
  - intros f s Hf Hget Hparse. eapply numeric_string_null; eassumption.
  - eapply payment_total_cell; eassumption.
Qed.

End Flattening.

(** ** The fetcher *)

Section Fetcher.
Variable server : list request -> request -> response.

Lemma fetch_loop_step fuel token start_date end_date limit offset all_sales w :
  fetch_loop server (S fuel) token start_date end_date limit offset all_sales w =
  let rq := page_request token start_date end_date limit offset in
  let w' := with_sent w [rq] in
  match decoded (server (sent w) rq) with
  | Raise e => (Raised e, w')
  | Ok data =>
      if negb (truthy (batch_of data)) then (Returned all_sales, w')
      else
        match py_iter (batch_of data) with
        | Raise e => (Raised e, w')
        | Ok items =>
            match py_len (batch_of data) with
            | Raise e => (Raised e, w')
            | Ok n =>
                if Z.ltb n limit then (Returned (all_sales ++ items), w')
                else fetch_loop server fuel token start_date end_date limit
                       (offset + limit) (all_sales ++ items) w'
            end
        end
  end.
Proof.
  cbn [fetch_loop]. unfold mbind at 1, prog_bind, http_get.
  fold (page_request token start_date end_date limit offset).
  fold (with_sent w [page_request token start_date end_date limit offset]).
  cbv zeta.
  destruct (decoded _) as [data|e]; [|reflexivity].
  unfold mbind at 1, prog_bind, lift.
  destruct (negb (truthy (batch_of data))); [reflexivity|].
  unfold mbind at 1, prog_bind.
  destruct (py_iter (batch_of data)) as [items|e]; [|reflexivity].
  unfold mbind at 1, prog_bind.
  destruct (py_len (batch_of data)) as [n|e]; [|reflexivity].
  cbn [lift]. destruct (Z.ltb n limit); reflexivity.
Qed.

Lemma with_sent_app w rqs1 rqs2 :
  with_sent (with_sent w rqs1) rqs2 = with_sent w (rqs1 ++ rqs2).
Proof. unfold with_sent. simpl. rewrite app_assoc. reflexivity. Qed.

Lemma serves_next history token start_date end_date limit offset page pages :
  serves server history token start_date end_date limit offset (page :: pages) ->
  serves server
    (history ++ [page_request token start_date end_date limit offset])
    token start_date end_date limit (offset + limit) pages.
Proof.
  intros H n. destruct (H (S n)) as (data & Hdata & Hbatch).
  exists data. split; [|exact Hbatch].
  rewrite <- app_assoc. simpl in Hdata |- *.
  replace (offset + limit + Z.of_nat n * limit)
    with (offset + Z.pos (Pos.of_succ_nat n) * limit) by lia.
  exact Hdata.
Qed.

Lemma serves_first history token start_date end_date limit offset pages :
  serves server history token start_date end_date limit offset pages ->
  exists data,
    server history (page_request token start_date end_date limit offset)
    = Payload data /\
    batch_of data = JList (nth 0 pages []).
Proof.
  intros H. destruct (H O) as (data & Hdata & Hbatch).
  exists data. split; [|exact Hbatch].
  simpl in Hdata. rewrite app_nil_r, Z.add_0_r in Hdata. exact Hdata.
Qed.

(** The loop against the pages served: it returns what is accumulated up to
    the first page that stops it, after one request per page read. *)
Lemma fetch_loop_pages token start_date end_date limit pages :
  forall fuel offset all_sales w,
    serves server (sent w) token start_date end_date limit offset pages ->
    (rounds limit pages <= fuel)%nat ->
    fetch_loop server fuel token start_date end_date limit offset all_sales w =
    (Returned (all_sales ++ accumulated limit pages),
     with_sent w (requests_from token start_date end_date limit offset
                    (rounds limit pages))).
Proof.
  induction pages as [|page pages IH]; intros fuel offset all_sales w Hs Hfuel.
  - destruct fuel as [|fuel]; [simpl in Hfuel; lia|].
    destruct (serves_first _ _ _ _ _ _ _ Hs) as (data & Hdata & Hbatch).
    rewrite fetch_loop_step. cbv zeta. rewrite Hdata. cbn [decoded].
    rewrite Hbatch. simpl. rewrite app_nil_r. reflexivity.
  - destruct (serves_first _ _ _ _ _ _ _ Hs) as (data & Hdata & Hbatch).
    cbn [nth] in Hbatch. cbn [rounds accumulated] in *.
    destruct (stops limit page) eqn:Hstop.
    + destruct fuel as [|fuel]; [lia|].
      rewrite fetch_loop_step. cbv zeta. rewrite Hdata. cbn [decoded].
      rewrite Hbatch. destruct page as [|x page]; [simpl; rewrite app_nil_r; reflexivity|].
      cbn [stops] in Hstop. cbn [truthy negb py_iter py_len].
      rewrite Hstop. reflexivity.
    + destruct fuel as [|fuel]; [lia|].
      rewrite fetch_loop_step. cbv zeta. rewrite Hdata. cbn [decoded].
      rewrite Hbatch. destruct page as [|x page]; [discriminate|].
      cbn [stops] in Hstop. cbn [truthy negb py_iter py_len].
      rewrite Hstop.
      rewrite IH.
      * rewrite <- app_assoc, with_sent_app. reflexivity.
      * apply serves_next with (page := x :: page). exact Hs.
      * lia.
Qed.

(** C4.  When the API serves a finite sequence of pages, and empty pages
    after them, the fetch returns with any fuel that covers its rounds: it
    has accumulated the pages up to the first one that is empty or shorter
    than the page size, and sent one request per page read, at the offsets
    0, limit, 2 limit, ...  When every page served holds exactly the page
    size, all of them are accumulated and the loop ends on the empty page
    that follows, after one more request than there are pages. *)
Theorem fetch_stops_at_short_page token start_date end_date limit pages w fuel :
  serves server (sent w) token start_date end_date limit 0 pages ->
  (rounds limit pages <= fuel)%nat ->
  fetch_all_sales_for_token server fuel token start_date end_date limit w =
    (Returned (accumulated limit pages),
     with_sent w (requests_from token start_date end_date limit 0
                    (rounds limit pages))) /\
  (0 < limit ->
   Forall (fun page => Z.of_nat (length page) = limit) pages ->
   rounds limit pages = S (length pages) /\
   accumulated limit pages = concat pages).
Proof.
  intros Hs Hfuel. split.
  - unfold fetch_all_sales_for_token.
    rewrite (fetch_loop_pages _ _ _ _ pages) by assumption. reflexivity.
  - intros Hpos Hfull. clear Hs Hfuel.
    induction Hfull as [|page pages Hpage _ IH]; [split; reflexivity|].
    destruct IH as [IHr IHa]. cbn [rounds accumulated concat length].
    assert (Hstop : stops limit page = false).
    { destruct page as [|x page]; [simpl in Hpage; lia|].
      cbn [stops]. apply Z.ltb_ge. lia. }
    rewrite Hstop, IHr, IHa. split; reflexivity.
Qed.

End Fetcher.

(** ** The orchestrator *)

Lemma prog_bind_run {A B} (m : prog A) (f : A -> prog B) w :
  (m ≫= f) w =
  match m w with
  | (Returned a, w') => f a w'
  | (Raised e, w') => (Raised e, w')
  | (Running, w') => (Running, w')
  end.
Proof. reflexivity. Qed.

Lemma lift_run {A} (r : result A) w :
  lift r w = (match r with Ok a => Returned a | Raise e => Raised e end, w).
Proof. destruct r; reflexivity. Qed.

Section Orchestrator.
Context `{RT : Runtime}.
Variable server : list request -> request -> response.

(** The fetcher sends requests and touches nothing else. *)
Lemma fetch_loop_frame fuel : forall token start_date end_date limit offset acc w,
  files (fetch_loop server fuel token start_date end_date limit offset acc w).2
    = files w /\
  stdout (fetch_loop server fuel token start_date end_date limit offset acc w).2
    = stdout w.
Proof.
  induction fuel as [|fuel IH]; intros token start_date end_date limit offset acc w.
  - split; reflexivity.
  - rewrite fetch_loop_step. cbv zeta.
    destruct (decoded _) as [data|e]; [|split; reflexivity].
    destruct (negb (truthy (batch_of data))); [split; reflexivity|].
    destruct (py_iter (batch_of data)) as [items|e]; [|split; reflexivity].
    destruct (py_len (batch_of data)) as [n|e]; [|split; reflexivity].
    destruct (Z.ltb n limit); [split; reflexivity|].
    destruct (IH token start_date end_date limit (offset + limit)
                 (acc ++ items)
                 (with_sent w [page_request token start_date end_date limit
                                 offset])) as [Hf Ho].
    split; [exact Hf|exact Ho].
Qed.

Lemma fetch_frame fuel token start_date end_date limit w st w' :
  fetch_all_sales_for_token server fuel token start_date end_date limit w
    = (st, w') ->
  files w' = files w /\ stdout w' = stdout w.
Proof.
  unfold fetch_all_sales_for_token. intros H.
  pose proof (fetch_loop_frame fuel token start_date end_date limit 0 [] w) as Hfr.
  rewrite H in Hfr. exact Hfr.
Qed.

(** A run that finds the file of the target date. *)
Lemma main_existing_file fuel e w d :
  target_date_of e = Ok d ->
  is_Some (files w !! filename e d) ->
  files (main server fuel e w).2 = files w /\
  stdout (main server fuel e w).2 =
    match (main server fuel e w).1 with
    | Returned _ => stdout w ++ [skip_notice (filename e d)]
    | _ => stdout w
    end.
Proof.
  intros Hd Hfile. unfold main.
  rewrite prog_bind_run, lift_run, Hd. unfold get_range_for_date.
  cbv beta iota zeta.
  rewrite prog_bind_run.
  destruct (fetch_all_sales_for_token server fuel (token_text (FOOD_TOKEN e))
              _ _ 50 w) as [st1 w1] eqn:Hfetch1.
  destruct (fetch_frame _ _ _ _ _ _ _ _ Hfetch1) as [Hf1 Ho1].
  destruct st1 as [food_json| |]; [|split; assumption..].
  rewrite prog_bind_run, lift_run.
  destruct (convert_sales_api_to_dataframe (JList food_json)) as [food_df|];
    [|split; assumption].
  rewrite prog_bind_run.
  destruct (fetch_all_sales_for_token server fuel (token_text (BAR_TOKEN e))
              _ _ 50 w1) as [st2 w2] eqn:Hfetch2.
  destruct (fetch_frame _ _ _ _ _ _ _ _ Hfetch2) as [Hf2 Ho2].
  rewrite Hf1 in Hf2. rewrite Ho1 in Ho2.
  destruct st2 as [bar_json| |]; [|split; assumption..].
  rewrite prog_bind_run, lift_run.
  destruct (convert_sales_api_to_dataframe (JList bar_json)) as [bar_df|];
    [|split; assumption].
  cbv zeta. rewrite prog_bind_run. unfold file_exists.
  rewrite Hf2. rewrite (bool_decide_eq_true_2 _ Hfile).
  unfold print. cbn [fst snd files stdout].
  split; [exact Hf2|]. rewrite Ho2. reflexivity.
Qed.

(** After a run that returned, the file of the target date exists. *)
Lemma main_returned_file fuel e w d :
  target_date_of e = Ok d ->
  (main server fuel e w).1 = Returned tt ->
  is_Some (files (main server fuel e w).2 !! filename e d).
Proof.
  intros Hd. unfold main.
  rewrite prog_bind_run, lift_run, Hd. unfold get_range_for_date.
  cbv beta iota zeta.
  rewrite prog_bind_run.
  destruct (fetch_all_sales_for_token server fuel (token_text (FOOD_TOKEN e))
              _ _ 50 w) as [st1 w1].
  destruct st1 as [food_json| |]; [|discriminate..].
  rewrite prog_bind_run, lift_run.
  destruct (convert_sales_api_to_dataframe (JList food_json)) as [food_df|];
    [|discriminate].
  rewrite prog_bind_run.
  destruct (fetch_all_sales_for_token server fuel (token_text (BAR_TOKEN e))
              _ _ 50 w1) as [st2 w2].
  destruct st2 as [bar_json| |]; [|discriminate..].
  rewrite prog_bind_run, lift_run.
  destruct (convert_sales_api_to_dataframe (JList bar_json)) as [bar_df|];
    [|discriminate].
  cbv zeta. rewrite prog_bind_run. unfold file_exists.
  destruct (bool_decide (is_Some (files w2 !! filename e d))) eqn:Hex.
  - intros _. unfold print. cbn [snd files].
    apply bool_decide_eq_true_1 in Hex. exact Hex.
  - intros _. rewrite prog_bind_run. unfold write_file, print. cbn [snd files].
    rewrite lookup_insert_eq. eexists. reflexivity.
Qed.

(** C7 (amended).  When the file of the target date exists as [main] starts,
    the run changes no file, whether it returns, raises or is still running;
    when it returns it has printed the skip notice and nothing else, and a run
    that raises or is still running has printed nothing.  So after a run that
    returned, a second run for the same date leaves every file as it is, and
    prints the skip notice if it returns. *)
Theorem existing_file_untouched :
  (forall fuel e w d,
     target_date_of e = Ok d ->
     is_Some (files w !! filename e d) ->
     files (main server fuel e w).2 = files w /\
     stdout (main server fuel e w).2 =
       match (main server fuel e w).1 with
       | Returned _ => stdout w ++ [skip_notice (filename e d)]
       | _ => stdout w
       end) /\
  (forall fuel fuel' e w d,
     target_date_of e = Ok d ->
     (main server fuel e w).1 = Returned tt ->
     let w1 := (main server fuel e w).2 in
     files (main server fuel' e w1).2 = files w1 /\
     stdout (main server fuel' e w1).2 =
       match (main server fuel' e w1).1 with
       | Returned _ => stdout w1 ++ [skip_notice (filename e d)]
       | _ => stdout w1
       end).
Proof.
  split; [exact main_existing_file|].
  intros fuel fuel' e w d Hd Hret w1.
  apply main_existing_file; [exact Hd|].
  apply main_returned_file; assumption.
Qed.

End Orchestrator.

(** * Further properties *)

(** ** The fetcher against any server *)

Section FetcherTrace.
Variable server : list request -> request -> response.

Lemma with_sent_nil w : with_sent w [] = w.
Proof. destruct w. unfold with_sent. simpl. rewrite app_nil_r. reflexivity. Qed.

Lemma fetch_loop_trace fuel :
  forall token start_date end_date limit offset all_sales w,
  exists n : nat,
    (n <= fuel)%nat /\
    (fetch_loop server fuel token start_date end_date limit offset all_sales w).2
      = with_sent w (requests_from token start_date end_date limit offset n) /\
    ((fetch_loop server fuel token start_date end_date limit offset all_sales
        w).1 = Running -> n = fuel) /\
    (fuel <> O -> n <> O).
Proof.
  induction fuel as [|fuel IH];
    intros token start_date end_date limit offset all_sales w.
  - exists O. simpl. rewrite with_sent_nil. repeat split; auto.
  - rewrite fetch_loop_step. cbv zeta.
    set (w' := with_sent w [page_request token start_date end_date limit offset]).
    assert (Hone : w' = with_sent w (requests_from token start_date end_date
                                       limit offset 1)) by reflexivity.
    destruct (decoded _) as [data|e];
      [|exists 1%nat; split; [lia|]; split; [exact Hone|]; split; [discriminate|lia]].
    destruct (negb (truthy (batch_of data)));
      [exists 1%nat; split; [lia|]; split; [exact Hone|]; split; [discriminate|lia]|].
    destruct (py_iter (batch_of data)) as [items|e];
      [|exists 1%nat; split; [lia|]; split; [exact Hone|]; split; [discriminate|lia]].
    destruct (py_len (batch_of data)) as [n|e];
      [|exists 1%nat; split; [lia|]; split; [exact Hone|]; split; [discriminate|lia]].
    destruct (Z.ltb n limit);
      [exists 1%nat; split; [lia|]; split; [exact Hone|]; split; [discriminate|lia]|].
    destruct (IH token start_date end_date limit (offset + limit)
                 (all_sales ++ items) w') as (k & Hk & Hw & Hrun & _).
    exists (S k). split; [lia|]. split.
    + rewrite Hw. unfold w'. rewrite with_sent_app. reflexivity.
    + split; [|lia]. intros H. rewrite (Hrun H). reflexivity.
Qed.

(** X1.  Whatever the API answers and however the fetch ends, the requests
    it has sent are the first [n] page requests of the fetch, at the offsets
    0, limit, 2 limit, ..., each with the token, the window and the limit it
    was called with; [n] is at most the fuel, at least one when there is
    fuel, and the whole fuel when the loop is still running.  No file is
    changed and nothing is printed. *)
Theorem fetch_requests fuel token start_date end_date limit w :
  exists n : nat,
    (n <= fuel)%nat /\
    (fetch_all_sales_for_token server fuel token start_date end_date limit w).2
      = with_sent w (requests_from token start_date end_date limit 0 n) /\
    ((fetch_all_sales_for_token server fuel token start_date end_date limit
        w).1 = Running -> n = fuel) /\
    (fuel <> O -> n <> O).
Proof. apply fetch_loop_trace. Qed.

Lemma fetch_loop_aborts token start_date end_date limit e pages :
  forall fuel offset all_sales w,
    Forall (fun page => stops limit page = false) pages ->
    serves_first_pages server (sent w) token start_date end_date limit offset pages ->
    decoded (server
               (sent w ++ requests_from token start_date end_date limit offset
                            (length pages))
               (page_request token start_date end_date limit
                  (offset + Z.of_nat (length pages) * limit)))
      = Raise e ->
    (length pages < fuel)%nat ->
    fetch_loop server fuel token start_date end_date limit offset all_sales w =
    (Raised e,
     with_sent w (requests_from token start_date end_date limit offset
                    (S (length pages)))).
Proof.
  induction pages as [|page pages IH];
    intros fuel offset all_sales w Hfull Hs Hfail Hfuel.
  - destruct fuel as [|fuel]; [simpl in Hfuel; lia|].
    rewrite fetch_loop_step. cbv zeta.
    simpl in Hfail. rewrite app_nil_r, Z.add_0_r in Hfail.
    rewrite Hfail. reflexivity.
  - destruct fuel as [|fuel]; [simpl in Hfuel; lia|].
    apply Forall_cons in Hfull as [Hpage Hfull].
    destruct (Hs O) as (data & Hdata & Hbatch); [simpl; lia|].
    simpl in Hdata, Hbatch. rewrite app_nil_r, Z.add_0_r in Hdata.
    rewrite fetch_loop_step. cbv zeta. rewrite Hdata. cbn [decoded].
    rewrite Hbatch. destruct page as [|x page]; [discriminate|].
    cbn [stops] in Hpage. cbn [truthy negb py_iter py_len]. rewrite Hpage.
    rewrite IH.
    + rewrite with_sent_app. reflexivity.
    + exact Hfull.
    + intros n Hn. destruct (Hs (S n)) as (d & Hd & Hb); [simpl; lia|].
      exists d. split; [|exact Hb].
      cbn [with_sent sent]. rewrite <- app_assoc. simpl in Hd |- *.
      replace (offset + limit + Z.of_nat n * limit)
        with (offset + Z.pos (Pos.of_succ_nat n) * limit) by lia.
      exact Hd.
    + cbn [with_sent sent]. rewrite <- app_assoc. simpl in Hfail |- *.
      replace (offset + limit + Z.of_nat (length pages) * limit)
        with (offset + Z.pos (Pos.of_succ_nat (length pages)) * limit) by lia.
      exact Hfail.
    + simpl in Hfuel. lia.
Qed.

(** X2.  When the API serves full pages and then answers a request with an
    error status or a body that is not JSON, the fetch raises that exception
    as soon as it gets the answer: the pages read so far are not returned. *)
Theorem fetch_aborts_on_failure token start_date end_date limit e pages fuel w :
  Forall (fun page => stops limit page = false) pages ->
  serves_first_pages server (sent w) token start_date end_date limit 0 pages ->
  decoded (server
             (sent w ++ requests_from token start_date end_date limit 0
                          (length pages))
             (page_request token start_date end_date limit
                (0 + Z.of_nat (length pages) * limit)))
    = Raise e ->
  (length pages < fuel)%nat ->
  fetch_all_sales_for_token server fuel token start_date end_date limit w =
  (Raised e,
   with_sent w (requests_from token start_date end_date limit 0
                  (S (length pages)))).
Proof. intros. apply fetch_loop_aborts; assumption. Qed.

Lemma fetch_loop_runs token start_date end_date limit :
  (forall history rq, exists data page,
      server history rq = Payload data /\
      batch_of data = JList page /\
      stops limit page = false) ->
  forall fuel offset all_sales w,
    (fetch_loop server fuel token start_date end_date limit offset all_sales
       w).1 = Running.
Proof.
  intros Hfull. induction fuel as [|fuel IH]; intros offset all_sales w.
  - reflexivity.
  - rewrite fetch_loop_step. cbv zeta.
    destruct (Hfull (sent w)
                (page_request token start_date end_date limit offset))
      as (data & page & -> & Hbatch & Hpage).
    cbn [decoded]. rewrite Hbatch. destruct page as [|x page]; [discriminate|].
    cbn [stops] in Hpage. cbn [truthy negb py_iter py_len]. rewrite Hpage.
    apply IH.
Qed.

(** X3.  Against an API that answers every request with a page that is not
    empty and not shorter than the page size, the loop never ends: for every
    fuel the fetch is still running, and it has sent one request per unit of
    fuel. *)
Theorem fetch_never_returns token start_date end_date limit fuel w :
  (forall history rq, exists data page,
      server history rq = Payload data /\
      batch_of data = JList page /\
      stops limit page = false) ->
  fetch_all_sales_for_token server fuel token start_date end_date limit w =
  (Running,
   with_sent w (requests_from token start_date end_date limit 0 fuel)).
Proof.
  intros Hfull.
  pose proof (fetch_loop_runs token start_date end_date limit Hfull fuel 0 [] w)
    as Hrun.
  destruct (fetch_loop_trace fuel token start_date end_date limit 0 [] w)
    as (n & _ & Hw & Hn & _).
  unfold fetch_all_sales_for_token in *.
  destruct (fetch_loop server fuel token start_date end_date limit 0 [] w)
    as [st w'] eqn:Heq.
  simpl in Hrun, Hw, Hn. subst st. rewrite (Hn eq_refl) in Hw. rewrite Hw.
  reflexivity.
Qed.

Lemma fetch_loop_ends token start_date end_date limit data pages :
  forall fuel offset all_sales w,
    Forall (fun page => stops limit page = false) pages ->
    serves_first_pages server (sent w) token start_date end_date limit offset
      pages ->
    server
      (sent w ++ requests_from token start_date end_date limit offset
                   (length pages))
      (page_request token start_date end_date limit
         (offset + Z.of_nat (length pages) * limit))
      = Payload data ->
    truthy (batch_of data) = false ->
    (length pages < fuel)%nat ->
    fetch_loop server fuel token start_date end_date limit offset all_sales w =
    (Returned (all_sales ++ concat pages),
     with_sent w (requests_from token start_date end_date limit offset
                    (S (length pages)))).
Proof.
  induction pages as [|page pages IH];
    intros fuel offset all_sales w Hfull Hs Hlast Hfalsy Hfuel.
  - destruct fuel as [|fuel]; [simpl in Hfuel; lia|].
    rewrite fetch_loop_step. cbv zeta.
    simpl in Hlast. rewrite app_nil_r, Z.add_0_r in Hlast.
    rewrite Hlast. cbn [decoded]. rewrite Hfalsy. simpl.
    rewrite app_nil_r. reflexivity.
  - destruct fuel as [|fuel]; [simpl in Hfuel; lia|].
    apply Forall_cons in Hfull as [Hpage Hfull].
    destruct (Hs O) as (d & Hd & Hbatch); [simpl; lia|].
    simpl in Hd, Hbatch. rewrite app_nil_r, Z.add_0_r in Hd.
    rewrite fetch_loop_step. cbv zeta. rewrite Hd. cbn [decoded].
    rewrite Hbatch. destruct page as [|x page]; [discriminate|].
    cbn [stops] in Hpage. cbn [truthy negb py_iter py_len]. rewrite Hpage.
    rewrite IH.
    + rewrite with_sent_app, <- app_assoc. reflexivity.
    + exact Hfull.
    + intros n Hn. destruct (Hs (S n)) as (d' & Hd' & Hb); [simpl; lia|].
      exists d'. split; [|exact Hb].
      cbn [with_sent sent]. rewrite <- app_assoc. simpl in Hd' |- *.
      replace (offset + limit + Z.of_nat n * limit)
        with (offset + Z.pos (Pos.of_succ_nat n) * limit) by lia.
      exact Hd'.
    + cbn [with_sent sent]. rewrite <- app_assoc. simpl in Hlast |- *.
      replace (offset + limit + Z.of_nat (length pages) * limit)
        with (offset + Z.pos (Pos.of_succ_nat (length pages)) * limit) by lia.
      exact Hlast.
    + exact Hfalsy.
    + simpl in Hfuel. lia.
Qed.

(** X20.  An answer whose batch is falsy ends the fetch as an empty page
    does: a dict without a ['data'] key, or with a null, empty or zero one, a
    bare null or empty string.  After full pages the fetch returns the pages
    read, without an error. *)
Theorem fetch_ends_on_falsy_batch token start_date end_date limit data pages
    fuel w :
  Forall (fun page => stops limit page = false) pages ->
  serves_first_pages server (sent w) token start_date end_date limit 0 pages ->
  server
    (sent w ++ requests_from token start_date end_date limit 0 (length pages))
    (page_request token start_date end_date limit
       (0 + Z.of_nat (length pages) * limit))
    = Payload data ->
  truthy (batch_of data) = false ->
  (length pages < fuel)%nat ->
  fetch_all_sales_for_token server fuel token start_date end_date limit w =
  (Returned (concat pages),
   with_sent w (requests_from token start_date end_date limit 0
                  (S (length pages)))).
Proof.
  intros. unfold fetch_all_sales_for_token.
  rewrite (fetch_loop_ends token start_date end_date limit data pages)
    by assumption.
  reflexivity.
Qed.

End FetcherTrace.

(** ** The failures of the flattener *)

Section FlattenerFailures.
Context `{RT : Runtime}.

Lemma convert_stops_at pre sale post blocks e :
  for_each sale_rows pre = Ok blocks ->
  sale_rows sale = Raise e ->
  convert_sales_api_to_dataframe (JList (pre ++ sale :: post)) = Raise e.
Proof.
  intros Hpre Hsale. rewrite convert_list_app, for_each_app, Hpre.
  cbn [mbind result_bind for_each]. rewrite Hsale. reflexivity.
Qed.

(** X4.  The flattener raises the exception of the first sale whose rows
    cannot be built, whatever the sales after it are: the rows built before
    are not returned. *)
Theorem first_failing_sale pre sale post blocks e :
  for_each sale_rows pre = Ok blocks ->
  sale_rows sale = Raise e ->
  convert_sales_api_to_dataframe (JList (pre ++ sale :: post)) = Raise e.
Proof.
  intros Hpre Hsale. exact (convert_stops_at pre sale post blocks e Hpre Hsale).
Qed.

(** X5.  A list of sales that is not empty but in which no sale has a line
    item does not give an empty table: the assembled table has no column,
    and the conversion of [sales_date_time] raises [KeyError]. *)
Theorem no_rows_key_error sale sales :
  Forall (fun s => sale_rows s = Ok []) (sale :: sales) ->
  convert_sales_api_to_dataframe (JList (sale :: sales))
  = Raise (KeyError "sales_date_time").
Proof.
  intros H. rewrite convert_list.
  assert (Hblocks : exists blocks,
            for_each sale_rows (sale :: sales) = Ok blocks /\
            concat blocks = []).
  { induction H as [|s ss Hs _ IH].
    - exists []. split; reflexivity.
    - destruct IH as (blocks & Hb & Hc). exists ([] :: blocks).
      cbn [for_each]. rewrite Hs, Hb. split; [reflexivity|exact Hc]. }
  destruct Hblocks as (blocks & -> & Hc). cbn [mbind result_bind].
  rewrite Hc. reflexivity.
Qed.

Lemma sale_rows_null_details ds :
  dict_get "sales_details" ds = Some JNull ->
  sale_rows (JDict ds) = Raise AttributeError.
Proof.
  intros H. unfold sale_rows, sales_items_of, py_get.
  cbn [mbind result_bind]. rewrite H. reflexivity.
Qed.

Lemma sale_rows_null_items ds sd :
  dict_get "sales_details" ds = Some (JDict sd) ->
  dict_get "sales_items" sd = Some JNull ->
  sale_rows (JDict ds) = Raise TypeError.
Proof.
  intros Hd Hi. unfold sale_rows, sales_items_of, py_get.
  cbn [mbind result_bind]. rewrite Hd. simpl. rewrite Hi. reflexivity.
Qed.

(** X6.  A key that is present with the value null is not an absent key.  A
    sale whose ['sales_details'] is null makes the flattener raise
    [AttributeError], and one whose details have a null ['sales_items'] makes
    it raise [TypeError], where the absent key gives a sale without rows. *)
Theorem null_line_items_raise pre ds post blocks :
  for_each sale_rows pre = Ok blocks ->
  (dict_get "sales_details" ds = Some JNull ->
   convert_sales_api_to_dataframe (JList (pre ++ JDict ds :: post))
   = Raise AttributeError) /\
  (forall sd,
     dict_get "sales_details" ds = Some (JDict sd) ->
     dict_get "sales_items" sd = Some JNull ->
     convert_sales_api_to_dataframe (JList (pre ++ JDict ds :: post))
     = Raise TypeError).
Proof.
  intros Hpre. split.
  - intros H. eapply convert_stops_at; [exact Hpre|].
    apply sale_rows_null_details. exact H.
  - intros sd Hd Hi. eapply convert_stops_at; [exact Hpre|].
    eapply sale_rows_null_items; eassumption.
Qed.

(** X7.  A sale with at least one line item and a ['sales_payments'] that is
    present but no dict (null, a list) makes the flattener raise
    [AttributeError], whatever its items are: the payment data is read before
    the row of the first item is built. *)
Theorem null_payments_raise pre ds sd item items p post blocks :
  for_each sale_rows pre = Ok blocks ->
  dict_get "sales_details" ds = Some (JDict sd) ->
  dict_get "sales_items" sd = Some (JList (item :: items)) ->
  dict_get "sales_payments" ds = Some p ->
  (forall kvs, p <> JDict kvs) ->
  convert_sales_api_to_dataframe (JList (pre ++ JDict ds :: post))
  = Raise AttributeError.
Proof.
  intros Hpre Hd Hi Hp Hnot. eapply convert_stops_at; [exact Hpre|].
  unfold sale_rows, sales_items_of, py_get. cbn [mbind result_bind].
  rewrite Hd. simpl. rewrite Hi. cbn [mbind result_bind for_each].
  unfold item_row, payment_methods_of, py_get. rewrite Hp.
  cbn [mbind result_bind default from_option id].
  destruct p as [| | | | |kvs]; try reflexivity.
  exfalso. exact (Hnot kvs eq_refl).
Qed.

End FlattenerFailures.

(** ** What the rows hold *)

Lemma Forall2_right {A B} (P : A -> B -> Prop) (Q : B -> Prop) l k :
  (forall x y, P x y -> Q y) -> Forall2 P l k -> Forall Q k.
Proof.
  intros HQ H. induction H as [|x y l k Hxy _ IH];
    [apply Forall_nil; exact I|apply Forall_cons; split; [|exact IH]].
  eapply HQ. exact Hxy.
Qed.


Section RowContents.
Context `{RT : Runtime}.









Lemma to_numeric_kind c : is_numeric_cell (to_numeric_coerce c) = true.
Proof.
  destruct c as [|v|ns]; [reflexivity| |reflexivity].
  destruct v as [| |n|s| |]; try reflexivity. simpl.
  destruct (pd_parse_number s) as [[z|x]|]; try reflexivity.
  simpl. destruct (float_is_nan x); reflexivity.
Qed.

Lemma numeric_not_date f :
  In f numeric_columns ->
  mem f date_columns = false /\ mem f numeric_columns = true.
Proof.
  intros Hf. apply list_elem_of_In in Hf. revert f Hf. apply Forall_forall.
  repeat constructor.
Qed.

(** X11.  In the result of the flattener no numeric column holds a string,
    a list or a dict: every entry of the eleven numeric columns is missing,
    a number or a bool. *)
Theorem numeric_columns_numeric sales df :
  convert_sales_api_to_dataframe (JList sales) = Ok df ->
  Forall (fun r => forall f, In f numeric_columns ->
                             is_numeric_cell (row_get f r) = true)
         (rows df).
Proof.
  intros H. apply convert_list_Ok in H as (blocks & _ & _ & Hrows).
  eapply Forall2_right; [|exact Hrows].
  intros rec r (_ & Hcell & _) f Hf.
  destruct (numeric_not_date f Hf) as [Hnd Hnum].
  rewrite (Hcell f Hnd). unfold output_cell. rewrite Hnum.
  apply to_numeric_kind.
Qed.




(** X13.  A timestamp [pd.to_datetime] refuses is not made missing: when the
    rows are built and the parser raises on the [sales_date_time] column, or
    accepts it and raises on the [created_at] column, the flattener raises
    that exception. *)
Theorem refused_date_raises sales blocks e :
  for_each sale_rows sales = Ok blocks ->
  concat blocks <> [] ->
  (pd_parse_datetimes (column_values "sales_date_time" (concat blocks))
     = Raise e \/
   (exists ts,
      pd_parse_datetimes (column_values "sales_date_time" (concat blocks))
        = Ok ts) /\
   pd_parse_datetimes (column_values "created_at" (concat blocks)) = Raise e) ->
  convert_sales_api_to_dataframe (JList sales) = Raise e.
Proof.
  intros Hblocks Hne Hparse. rewrite convert_list.
  destruct sales as [|sale sales].
  { simpl in Hblocks. injection Hblocks as <-. contradiction. }
  rewrite Hblocks. cbn [mbind result_bind].
  pose proof (blocks_keys _ _ Hblocks) as Hkeys.
  rewrite make_frame_fields by assumption.
  rewrite normalise_fields by reflexivity. cbn [rows].
  assert (Hcol : forall col,
            omap present
              (map (row_get col) (map (map (prod_map id cell_of)) (concat blocks)))
            = column_values col (concat blocks)).
  { intros col. unfold column_values. f_equal. rewrite map_map.
    apply map_ext. intros rec. apply row_get_cells. }
  rewrite !Hcol.
  destruct Hparse as [->|[(ts & ->) ->]]; reflexivity.
Qed.

Lemma mem_false_eqb k ks key :
  mem k ks = false -> mem key ks = true -> String.eqb key k = false.
Proof.
  intros Hk Hkey. destruct (String.eqb_spec key k) as [->|_]; [|reflexivity].
  congruence.
Qed.

Lemma item_row_unread_sale_key ds k v item :
  mem k sale_keys = false ->
  item_row (JDict (dict_set k v ds)) item = item_row (JDict ds) item.
Proof.
  intros Hk. pose proof (mem_false_eqb k sale_keys) as Hne.
  unfold item_row, payment_methods_of, payment_total_of, row_entries, py_get2.
  rewrite !py_get_set_other by (apply Hne; [exact Hk|reflexivity]).
  reflexivity.
Qed.

Lemma item_row_unread_item_key sale di k v :
  mem k item_keys = false ->
  item_row sale (JDict (dict_set k v di)) = item_row sale (JDict di).
Proof.
  intros Hk. pose proof (mem_false_eqb k item_keys) as Hne.
  unfold item_row, row_entries.
  rewrite !py_get_set_other by (apply Hne; [exact Hk|reflexivity]).
  reflexivity.
Qed.

(** X14.  The flattener reads fourteen keys of a sale and twenty keys of an
    item, and nothing else of them: giving any value to another key of a
    sale, or of one of its items, leaves its result as it is, rows or
    exception. *)
Theorem unread_keys_ignored k v pre post :
  (forall ds,
     mem k sale_keys = false ->
     convert_sales_api_to_dataframe
       (JList (pre ++ JDict (dict_set k v ds) :: post)) =
     convert_sales_api_to_dataframe (JList (pre ++ JDict ds :: post))) /\
  (forall ds sd its1 di its2,
     mem k item_keys = false ->
     dict_get "sales_details" ds = Some (JDict sd) ->
     dict_get "sales_items" sd = Some (JList (its1 ++ JDict di :: its2)) ->
     convert_sales_api_to_dataframe
       (JList (pre ++ with_items ds sd
                        (its1 ++ JDict (dict_set k v di) :: its2) :: post)) =
     convert_sales_api_to_dataframe (JList (pre ++ JDict ds :: post))).
Proof.
  split.
  - intros ds Hk.
    assert (Hrows : sale_rows (JDict (dict_set k v ds)) = sale_rows (JDict ds)).
    { unfold sale_rows, sales_items_of.
      rewrite py_get_set_other
        by (apply (mem_false_eqb k sale_keys); [exact Hk|reflexivity]).
      destruct (py_get (JDict ds) "sales_details" (JDict [])) as [details|];
        [|reflexivity].
      cbn [mbind result_bind].
      destruct (py_get details "sales_items" (JList [])) as [si|]; [|reflexivity].
      cbn [mbind result_bind].
      destruct (py_iter si) as [items|]; [|reflexivity].
      cbn [mbind result_bind].
      apply for_each_ext. intros item.
      apply item_row_unread_sale_key. exact Hk. }
    rewrite !convert_list_app, !for_each_app. cbn [for_each].
    rewrite Hrows. reflexivity.
  - intros ds sd its1 di its2 Hk Hsd Hitems.
    assert (Hrows : sale_rows (with_items ds sd
                                 (its1 ++ JDict (dict_set k v di) :: its2))
                    = sale_rows (JDict ds)).
    { unfold sale_rows. rewrite sales_items_with_items.
      assert (Hsi : sales_items_of (JDict ds)
                    = Ok (JList (its1 ++ JDict di :: its2))).
      { unfold sales_items_of, py_get. cbn [mbind result_bind].
        rewrite Hsd. simpl. rewrite Hitems. reflexivity. }
      rewrite Hsi. cbn [mbind result_bind py_iter].
      rewrite (for_each_ext _ (item_row (JDict ds)))
        by (intros; apply item_row_with_items; exact Hsd).
      rewrite !for_each_app. cbn [for_each].
      rewrite item_row_unread_item_key by exact Hk. reflexivity. }
    rewrite !convert_list_app, !for_each_app. cbn [for_each].
    rewrite Hrows. reflexivity.
Qed.

End RowContents.

(** ** The run of [main] *)

Section MainRun.
Context `{RT : Runtime}.
Variable server : list request -> request -> response.

(** [main], once the target date is known: the two fetches and the two
    flattenings in turn, then the file. *)
Lemma main_unfold fuel e w d :
  target_date_of e = Ok d ->
  main server fuel e w =
  let start_str := (get_range_for_date d).1.1 in
  let end_str := (get_range_for_date d).1.2 in
  match fetch_all_sales_for_token server fuel (token_text (FOOD_TOKEN e))
          start_str end_str 50 w with
  | (Returned food_json, w1) =>
      match convert_sales_api_to_dataframe (JList food_json) with
      | Ok food_df =>
          match fetch_all_sales_for_token server fuel
                  (token_text (BAR_TOKEN e)) start_str end_str 50 w1 with
          | (Returned bar_json, w2) =>
              match convert_sales_api_to_dataframe (JList bar_json) with
              | Ok bar_df =>
                  if bool_decide (is_Some (files w2 !! filename e d))
                  then (Returned tt,
                        {| sent := sent w2; files := files w2;
                           stdout := stdout w2 ++ [skip_notice (filename e d)] |})
                  else (Returned tt,
                        {| sent := sent w2;
                           files := <[filename e d :=
                                        csv_text (full_df food_df bar_df)]>
                                      (files w2);
                           stdout := stdout w2 ++ [saved_notice (filename e d)] |})
              | Raise x => (Raised x, w2)
              end
          | (Raised x, w2) => (Raised x, w2)
          | (Running, w2) => (Running, w2)
          end
      | Raise x => (Raised x, w1)
      end
  | (Raised x, w1) => (Raised x, w1)
  | (Running, w1) => (Running, w1)
  end.
Proof.
  intros Hd. unfold main.
  rewrite prog_bind_run, lift_run, Hd. unfold get_range_for_date.
  cbv beta iota zeta. cbn [fst snd].
  rewrite prog_bind_run.
  destruct (fetch_all_sales_for_token server fuel (token_text (FOOD_TOKEN e))
              _ _ 50 w) as [st1 w1].
  destruct st1 as [food_json| |]; [|reflexivity..].
  rewrite prog_bind_run, lift_run.
  destruct (convert_sales_api_to_dataframe (JList food_json)) as [food_df|];
    [|reflexivity].
  rewrite prog_bind_run.
  destruct (fetch_all_sales_for_token server fuel (token_text (BAR_TOKEN e))
              _ _ 50 w1) as [st2 w2].
  destruct st2 as [bar_json| |]; [|reflexivity..].
  rewrite prog_bind_run, lift_run.
  destruct (convert_sales_api_to_dataframe (JList bar_json)) as [bar_df|];
    [|reflexivity].
  cbv zeta. rewrite prog_bind_run. unfold file_exists.
  destruct (bool_decide (is_Some (files w2 !! filename e d))); reflexivity.
Qed.

Lemma main_bad_date fuel e w x :
  target_date_of e = Raise x -> main server fuel e w = (Raised x, w).
Proof.
  intros Hd. unfold main. rewrite prog_bind_run, lift_run, Hd. reflexivity.
Qed.

Ltac main_cases fuel e w d :=
  destruct (fetch_all_sales_for_token server fuel (token_text (FOOD_TOKEN e))
              (get_range_for_date d).1.1 (get_range_for_date d).1.2 50 w)
    as [[food_json| |] w1] eqn:Hfood;
  [destruct (convert_sales_api_to_dataframe (JList food_json))
     as [food_df|] eqn:Hfood_df;
   [destruct (fetch_all_sales_for_token server fuel
                (token_text (BAR_TOKEN e))
                (get_range_for_date d).1.1 (get_range_for_date d).1.2 50 w1)
      as [[bar_json| |] w2] eqn:Hbar;
    [destruct (convert_sales_api_to_dataframe (JList bar_json))
       as [bar_df|] eqn:Hbar_df;
     [destruct (bool_decide (is_Some (files w2 !! filename e d))) eqn:Hex|]
    | | ]
   |]
  | | ].

(** X15.  [main] leaves no partial output.  A run that does not return (it
    raises, or is still running) has changed no file and printed nothing; and
    no run changes a file other than the file of the target date. *)
Theorem main_no_partial_output fuel e w :
  ((main server fuel e w).1 <> Returned tt ->
   files (main server fuel e w).2 = files w /\
   stdout (main server fuel e w).2 = stdout w) /\
  (forall d p,
     target_date_of e = Ok d ->
     p <> filename e d ->
     files (main server fuel e w).2 !! p = files w !! p).
Proof.
  destruct (target_date_of e) as [d|x] eqn:Hd.
  2:{ rewrite (main_bad_date fuel e w x Hd). split.
      - intros _. split; reflexivity.
      - intros d p [=]. }
  rewrite (main_unfold fuel e w d Hd). cbv zeta.
  main_cases fuel e w d; cbn [fst snd files stdout];
    try (pose proof (fetch_frame _ _ _ _ _ _ _ _ _ Hfood) as [Hf1 Ho1]);
    try (pose proof (fetch_frame _ _ _ _ _ _ _ _ _ Hbar) as [Hf2 Ho2]);
    (split;
     [ intros Hst; first [ exfalso; apply Hst; reflexivity
                         | split; congruence ]
     | intros d' p [= <-] Hp; rewrite ?lookup_insert_ne by congruence;
       congruence ]).
Qed.

(** X16.  The first run of a day.  When the file of the target date does not
    exist and [main] returns, both sources were fetched and flattened, the
    file holds the CSV text of the Food table followed by the Bar table, each
    tagged with its area, no other file is changed, and the one line printed
    is the saved notice. *)
Theorem first_run_saves fuel e w d :
  target_date_of e = Ok d ->
  files w !! filename e d = None ->
  (main server fuel e w).1 = Returned tt ->
  exists food_json bar_json food_df bar_df w1,
    fetch_all_sales_for_token server fuel (token_text (FOOD_TOKEN e))
      (get_range_for_date d).1.1 (get_range_for_date d).1.2 50 w
      = (Returned food_json, w1) /\
    convert_sales_api_to_dataframe (JList food_json) = Ok food_df /\
    (fetch_all_sales_for_token server fuel (token_text (BAR_TOKEN e))
       (get_range_for_date d).1.1 (get_range_for_date d).1.2 50 w1).1
      = Returned bar_json /\
    convert_sales_api_to_dataframe (JList bar_json) = Ok bar_df /\
    files (main server fuel e w).2
      = <[filename e d := csv_text (full_df food_df bar_df)]> (files w) /\
    stdout (main server fuel e w).2
      = stdout w ++ [saved_notice (filename e d)].
Proof.
  intros Hd Hnone. rewrite (main_unfold fuel e w d Hd). cbv zeta.
  main_cases fuel e w d; cbn [fst snd files stdout]; try discriminate.
  - pose proof (fetch_frame _ _ _ _ _ _ _ _ _ Hfood) as [Hf1 _].
    pose proof (fetch_frame _ _ _ _ _ _ _ _ _ Hbar) as [Hf2 _].
    apply bool_decide_eq_true_1 in Hex. rewrite Hf2, Hf1, Hnone in Hex.
    destruct Hex as (x & [=]).
  - intros _.
    pose proof (fetch_frame _ _ _ _ _ _ _ _ _ Hfood) as [Hf1 Ho1].
    pose proof (fetch_frame _ _ _ _ _ _ _ _ _ Hbar) as [Hf2 Ho2].
    exists food_json, bar_json, food_df, bar_df, w1.
    rewrite Hbar. cbn [fst].
    repeat split; try assumption; try reflexivity; congruence.
Qed.

(** X17.  A source without a sale on the target date ends the run: when the
    fetch of Food returns no sale [main] raises the flattener's "No sales
    data found" without fetching Bar, and when Food is flattened and the
    fetch of Bar returns no sale it raises the same, in the world the last
    fetch left. *)
Theorem empty_source_aborts fuel e w d :
  target_date_of e = Ok d ->
  (forall w1,
     fetch_all_sales_for_token server fuel (token_text (FOOD_TOKEN e))
       (get_range_for_date d).1.1 (get_range_for_date d).1.2 50 w
       = (Returned [], w1) ->
     main server fuel e w = (Raised (ValueError "No sales data found"), w1)) /\
  (forall food_json food_df w1 w2,
     fetch_all_sales_for_token server fuel (token_text (FOOD_TOKEN e))
       (get_range_for_date d).1.1 (get_range_for_date d).1.2 50 w
       = (Returned food_json, w1) ->
     convert_sales_api_to_dataframe (JList food_json) = Ok food_df ->
     fetch_all_sales_for_token server fuel (token_text (BAR_TOKEN e))
       (get_range_for_date d).1.1 (get_range_for_date d).1.2 50 w1
       = (Returned [], w2) ->
     main server fuel e w = (Raised (ValueError "No sales data found"), w2)).
Proof.
  intros Hd. split.
  - intros w1 Hfood. rewrite (main_unfold fuel e w d Hd). cbv zeta.
    rewrite Hfood. reflexivity.
  - intros food_json food_df w1 w2 Hfood Hfood_df Hbar.
    rewrite (main_unfold fuel e w d Hd). cbv zeta.
    rewrite Hfood, Hfood_df, Hbar. reflexivity.
Qed.

Lemma fetch_trace fuel token start_date end_date limit w st w' :
  fetch_all_sales_for_token server fuel token start_date end_date limit w
    = (st, w') ->
  exists n : nat,
    (n <= fuel)%nat /\
    w' = with_sent w (requests_from token start_date end_date limit 0 n).
Proof.
  intros H.
  destruct (fetch_loop_trace server fuel token start_date end_date limit 0 [] w)
    as (n & Hn & Hw & _).
  unfold fetch_all_sales_for_token in H. rewrite H in Hw.
  exists n. split; [exact Hn|exact Hw].
Qed.

Lemma main_trace fuel e w d :
  target_date_of e = Ok d ->
  exists n m : nat,
    (n <= fuel)%nat /\ (m <= fuel)%nat /\
    sent (main server fuel e w).2 =
      sent w
        ++ requests_from (token_text (FOOD_TOKEN e))
             (get_range_for_date d).1.1 (get_range_for_date d).1.2 50 0 n
        ++ requests_from (token_text (BAR_TOKEN e))
             (get_range_for_date d).1.1 (get_range_for_date d).1.2 50 0 m.
Proof.
  intros Hd. rewrite (main_unfold fuel e w d Hd). cbv zeta.
  main_cases fuel e w d; cbn [fst snd sent];
    destruct (fetch_trace _ _ _ _ _ _ _ _ Hfood) as (n & Hn & ->);
    try (destruct (fetch_trace _ _ _ _ _ _ _ _ Hbar) as (m & Hm & ->));
    cbn [with_sent sent];
    first [ exists n, m; split; [exact Hn|]; split; [exact Hm|];
            rewrite <- app_assoc; reflexivity
          | exists n, O; split; [exact Hn|]; split; [lia|];
            simpl; rewrite app_nil_r; reflexivity ].
Qed.

(** X18.  The requests of a run.  [main] sends the page requests of a Food
    fetch, then those of a Bar fetch, and nothing else: every request asks for
    the window of the target date with the page size 50, at the offsets 0, 50,
    100, ..., and every Food request is sent before every Bar request. *)
Theorem main_requests fuel e w d :
  target_date_of e = Ok d ->
  exists n m : nat,
    (n <= fuel)%nat /\ (m <= fuel)%nat /\
    sent (main server fuel e w).2 =
      sent w
        ++ requests_from (token_text (FOOD_TOKEN e))
             (get_range_for_date d).1.1 (get_range_for_date d).1.2 50 0 n
        ++ requests_from (token_text (BAR_TOKEN e))
             (get_range_for_date d).1.1 (get_range_for_date d).1.2 50 0 m.
Proof. apply main_trace. Qed.

Lemma requests_from_token token start_date end_date limit n : forall offset,
  Forall (fun rq => rq_token rq = token)
         (requests_from token start_date end_date limit offset n).
Proof.
  induction n as [|n IH]; intros offset; simpl;
    [apply Forall_nil; exact I|apply Forall_cons; split; [reflexivity|apply IH]].
Qed.

Lemma set_token_text t : set_token t = true -> token_text t <> "".
Proof.
  destruct t as [s|]; simpl; [|discriminate].
  destruct (String.eqb_spec s ""); [discriminate|]. intros _. assumption.
Qed.

(** X19.  The script checks its two tokens before anything else.  When one
    of them is unset or empty it raises [RuntimeError] in the world it
    started in: no request is sent, no file written, nothing printed.  In
    every run, each request that is sent carries a token that is set and not
    empty. *)
Theorem script_checks_tokens fuel e w :
  (set_token (FOOD_TOKEN e) && set_token (BAR_TOKEN e) = false ->
   script server fuel e w =
   (Raised (RuntimeError
      "FOOD_TOKEN and/or BAR_TOKEN environment variables are not set."), w)) /\
  exists new,
    sent (script server fuel e w).2 = sent w ++ new /\
    Forall (fun rq => rq_token rq <> "") new.
Proof.
  unfold script.
  destruct (set_token (FOOD_TOKEN e)) eqn:Hfood;
    [destruct (set_token (BAR_TOKEN e)) eqn:Hbar|]; cbn [andb].
  - split; [discriminate|].
    destruct (target_date_of e) as [d|x] eqn:Hd.
    + destruct (main_trace fuel e w d Hd) as (n & m & _ & _ & ->).
      eexists. split; [reflexivity|].
      apply Forall_app. split.
      * eapply Forall_impl; [apply requests_from_token|].
        intros rq ->. apply set_token_text. exact Hfood.
      * eapply Forall_impl; [apply requests_from_token|].
        intros rq ->. apply set_token_text. exact Hbar.
    + rewrite (main_bad_date fuel e w x Hd). exists [].
      split; [simpl; rewrite app_nil_r; reflexivity|apply Forall_nil; exact I].
  - split; [reflexivity|]. exists [].
    split; [simpl; rewrite app_nil_r; reflexivity|apply Forall_nil; exact I].
  - split; [reflexivity|]. exists [].
    split; [simpl; rewrite app_nil_r; reflexivity|apply Forall_nil; exact I].
Qed.




(** X22.  A run for a date given on the command line does not depend on the
    day it is started: with a [--date] that is not empty, [main] does the same
    whatever today is. *)
Theorem explicit_date_ignores_today fuel e w s t :
  arg_date e = Some s ->
  s <> "" ->
  main server fuel (on_day e t) w = main server fuel e w.
Proof.
  intros Harg Hs.
  assert (Htarget : target_date_of (on_day e t) = target_date_of e).
  { unfold target_date_of, on_day. cbn [arg_date today]. rewrite Harg.
    destruct (String.eqb_spec s ""); [contradiction|reflexivity]. }
  unfold main. rewrite Htarget. reflexivity.
Qed.

End MainRun.

(** * The results on concrete inputs *)

#[local] Existing Instance Reference.runtime.


Lemma payment_amount_raises :
  Reference.float_of_string "N/A" = None /\
  convert_sales_api_to_dataframe (RT := Reference.runtime)
    (JList [unparsable_payment_sale])
  = Raise (ValueError "could not convert string to float").
Proof. split; vm_compute; reflexivity. Qed.

Lemma numeric_strings_scenario :
  exists df',
    convert_sales_api_to_dataframe (RT := Reference.runtime)
      (JList ([] ++ with_items scenario_entries scenario_details
                      ([] ++ JDict (dict_set "quantity" (JStr "N/A")
                                      scenario_item) :: [])
                 :: [])) = Ok df'.
Proof.
  apply (proj2 numeric_strings_become_null
           "quantity" (JStr "N/A") scenario_entries scenario_details
           [] scenario_item [] [] [] scenario_frame).
  - simpl. left. reflexivity.
  - reflexivity.
  - reflexivity.
  - vm_compute. reflexivity.
Defined.

(** The row of the scenario with ["N/A"] as the quantity of its item. *)
Example unparsable_quantity_is_missing :
  (fun df => map (row_get "quantity") (rows df))
    (frame_of (convert_sales_api_to_dataframe (RT := Reference.runtime)
       (JList [with_items scenario_entries scenario_details
                 [JDict (dict_set "quantity" (JStr "N/A") scenario_item)]])))
  = [CNull].
Proof. vm_compute. reflexivity. Qed.


Lemma wrapped_scenario :
  convert_sales_api_to_dataframe
    (JDict [ ("status", JStr "ok"); ("data", JList [scenario_sale]) ]) =
  convert_sales_api_to_dataframe (JList [scenario_sale]).
Proof.
  apply (wrapped_list_same
           [ ("status", JStr "ok"); ("data", JList [scenario_sale]) ]
           [scenario_sale]).
  reflexivity.
Defined.

Lemma number_is_malformed :
  convert_sales_api_to_dataframe (JNum (NInt 3)) =
  Raise (ValueError "Expected dict with 'data' key or list of sales").
Proof.
  apply (proj2 empty_and_malformed_input (JNum (NInt 3))).
  - intros l. discriminate.
  - intros kvs v. discriminate.
Defined.

Lemma unpaid_payment_total_zero :
  convert_sales_api_to_dataframe (RT := Reference.runtime)
    (JList [JDict unpaid_entries]) = Ok unpaid_frame /\
  absent Payments unpaid_entries scenario_item /\
  map (row_get "payment_total") (rows unpaid_frame) = [CObj (JNum (NInt 0))] /\
  map (row_get "payment_methods") (rows unpaid_frame) = [CObj (JStr "")] /\
  names_only_default "payment_total" = CNull /\
  names_only_default "payment_methods" = CNull.
Proof. repeat split; vm_compute; reflexivity. Qed.

Lemma fixed_fields_scenario :
  columns scenario_frame = FIELDS /\
  Forall (fun r => map fst r = FIELDS) (rows scenario_frame) /\
  exists blocks : list (list row),
    rows scenario_frame = concat blocks /\
    Forall2 (fun sale block =>
               exists sales_items items,
                 sales_items_of sale = Ok sales_items /\
                 py_iter sales_items = Ok items /\
                 Forall2 (fun item r =>
                            forall ds di field src,
                              sale = JDict ds -> item = JDict di ->
                              In (field, src) sources ->
                              absent src ds di ->
                              row_get field r = default_cell field)
                         items block)
            [scenario_sale] blocks.
Proof.
  apply (fixed_fields_and_defaults [scenario_sale] scenario_frame).
  vm_compute. reflexivity.
Defined.

Lemma voided_sale_unread :
  sale_rows (JDict (dict_set "sales_payments" unparsable_payments
                      voided_entries)) = Ok [] /\
  convert_sales_api_to_dataframe
    (JList ([scenario_sale]
              ++ JDict (dict_set "sales_payments" unparsable_payments
                          voided_entries) :: [])) =
  convert_sales_api_to_dataframe
    (JList ([scenario_sale] ++ JDict voided_entries :: [])).
Proof.
  apply (no_items_payments_unread voided_entries unparsable_payments
           [scenario_sale] []).
  left. reflexivity.
Defined.


Lemma fetch_fifty_sales :
  fetch_all_sales_for_token fifty_sales_server 2 "token" "from" "to" 50
    fresh_world =
    (Returned (accumulated 50 [fifty_sales]),
     with_sent fresh_world
       (requests_from "token" "from" "to" 50 0 (rounds 50 [fifty_sales]))) /\
  (0 < 50 ->
   Forall (fun page => Z.of_nat (length page) = 50) [fifty_sales] ->
   rounds 50 [fifty_sales] = S (length [fifty_sales]) /\
   accumulated 50 [fifty_sales] = concat [fifty_sales]).
Proof.
  apply (fetch_stops_at_short_page fifty_sales_server "token" "from" "to" 50
           [fifty_sales] fresh_world 2).
  - intros n. eexists. split; [reflexivity|].
    destruct n as [|[|n]]; reflexivity.
  - vm_compute. lia.
Defined.

(** The fetch of the fifty sales: two requests, at the offsets 0 and 50. *)
Example fetch_fifty_sales_requests :
  (fun r => (length (match r.1 with Returned l => l | _ => [] end),
             map rq_offset (sent r.2)))
    (fetch_all_sales_for_token fifty_sales_server 2 "token" "from" "to" 50
       fresh_world)
  = (50%nat, [0; 50]).
Proof. vm_compute. reflexivity. Qed.

Lemma skip_notice_not_printed :
  target_date_of (RT := Reference.runtime) nightly_env = Ok march_first /\
  files archived_world !! filename (RT := Reference.runtime) nightly_env march_first
    = Some "Area" /\
  (main (RT := Reference.runtime) server_down 10 nightly_env archived_world).1
    = Raised HTTPError /\
  stdout (main (RT := Reference.runtime) server_down 10 nightly_env
            archived_world).2 = [].
Proof. repeat split; vm_compute; reflexivity. Qed.

Lemma archived_run_skips :
  files (main (RT := Reference.runtime) one_sale_server 10 nightly_env
           archived_world).2 = files archived_world /\
  stdout (main (RT := Reference.runtime) one_sale_server 10 nightly_env
            archived_world).2 =
    match (main (RT := Reference.runtime) one_sale_server 10 nightly_env
             archived_world).1 with
    | Returned _ =>
        stdout archived_world
          ++ [skip_notice (filename (RT := Reference.runtime) nightly_env
                             march_first)]
    | _ => stdout archived_world
    end.
Proof.
  apply (proj1 (existing_file_untouched (RT := Reference.runtime)
                  one_sale_server) 10%nat nightly_env archived_world
           march_first).
  - vm_compute. reflexivity.
  - exists "Area". vm_compute. reflexivity.
Defined.

(** The second run of the day: it returns and prints the skip notice. *)
Example archived_run_output :
  (fun r => (r.1, stdout r.2))
    (main (RT := Reference.runtime) one_sale_server 10 nightly_env
       archived_world)
  = (Returned tt,
     ["File already exists, skipping: /repo/GoodtillSalesArchive/2024-03-01_sales.csv"]).
Proof. vm_compute. reflexivity. Qed.

(** The first run of the day writes the file. *)
Example first_run_writes :
  (fun r => (r.1, stdout r.2,
             bool_decide
               (is_Some (files r.2
                           !! "/repo/GoodtillSalesArchive/2024-03-01_sales.csv"))))
    (main (RT := Reference.runtime) one_sale_server 10 nightly_env fresh_world)
  = (Returned tt,
     ["Saved daily sales to /repo/GoodtillSalesArchive/2024-03-01_sales.csv"],
     true).
Proof. vm_compute. reflexivity. Qed.

(** ** The further properties on concrete inputs *)

Lemma fetch_aborts_after_full_page :
  fetch_all_sales_for_token fifty_then_down 2 "token" "from" "to" 50
    fresh_world =
  (Raised HTTPError,
   with_sent fresh_world
     (requests_from "token" "from" "to" 50 0 (S (length [fifty_sales])))).
Proof.
  apply (fetch_aborts_on_failure fifty_then_down "token" "from" "to" 50
           HTTPError [fifty_sales] 2 fresh_world).
  - repeat constructor.
  - intros n Hn. destruct n as [|n]; [|simpl in Hn; lia].
    eexists. split; reflexivity.
  - reflexivity.
  - simpl. lia.
Defined.

Lemma fetch_full_pages_forever :
  fetch_all_sales_for_token always_full_server 3 "token" "from" "to" 50
    fresh_world =
  (Running,
   with_sent fresh_world (requests_from "token" "from" "to" 50 0 3)).
Proof.
  apply (fetch_never_returns always_full_server "token" "from" "to" 50 3
           fresh_world).
  intros history rq. exists (JList fifty_sales), fifty_sales.
  split; [reflexivity|]. split; reflexivity.
Defined.

Lemma string_after_scenario_raises :
  convert_sales_api_to_dataframe (JList ([scenario_sale] ++ JStr "x" :: []))
  = Raise AttributeError.
Proof.
  eapply (first_failing_sale [scenario_sale] (JStr "x") []).
  - vm_compute. reflexivity.
  - reflexivity.
Defined.

Lemma voided_sale_alone_raises :
  convert_sales_api_to_dataframe (JList (JDict voided_entries :: []))
  = Raise (KeyError "sales_date_time").
Proof.
  apply (no_rows_key_error (JDict voided_entries) []).
  repeat constructor.
Defined.

Lemma null_details_scenario :
  convert_sales_api_to_dataframe
    (JList ([scenario_sale] ++ JDict null_details_entries :: []))
  = Raise AttributeError.
Proof.
  destruct (for_each sale_rows [scenario_sale]) as [blocks|] eqn:Hblocks;
    [|vm_compute in Hblocks; discriminate].
  apply (proj1 (null_line_items_raise [scenario_sale] null_details_entries
                  [] blocks Hblocks)).
  reflexivity.
Defined.

Lemma list_payments_scenario :
  convert_sales_api_to_dataframe
    (JList ([] ++ JDict list_payments_entries :: []))
  = Raise AttributeError.
Proof.
  apply (null_payments_raise [] list_payments_entries scenario_details
           (JDict scenario_item) [] (JList []) [] []).
  - reflexivity.
  - reflexivity.
  - reflexivity.
  - reflexivity.
  - intros kvs. discriminate.
Defined.

Lemma refused_date_scenario :
  convert_sales_api_to_dataframe (JList [misdated_sale])
  = Raise (ValueError "time data does not match format").
Proof.
  eapply (refused_date_raises [misdated_sale]).
  - vm_compute. reflexivity.
  - discriminate.
  - left. vm_compute. reflexivity.
Defined.

Lemma first_run_scenario :
  exists food_json bar_json food_df bar_df w1,
    fetch_all_sales_for_token one_sale_server 10 (token_text (FOOD_TOKEN nightly_env))
      (get_range_for_date march_first).1.1 (get_range_for_date march_first).1.2
      50 fresh_world
      = (Returned food_json, w1) /\
    convert_sales_api_to_dataframe (JList food_json) = Ok food_df /\
    (fetch_all_sales_for_token one_sale_server 10
       (token_text (BAR_TOKEN nightly_env))
       (get_range_for_date march_first).1.1 (get_range_for_date march_first).1.2
       50 w1).1
      = Returned bar_json /\
    convert_sales_api_to_dataframe (JList bar_json) = Ok bar_df /\
    files (main one_sale_server 10 nightly_env fresh_world).2
      = <[filename nightly_env march_first :=
            csv_text (full_df food_df bar_df)]> (files fresh_world) /\
    stdout (main one_sale_server 10 nightly_env fresh_world).2
      = stdout fresh_world ++ [saved_notice (filename nightly_env march_first)].
Proof.
  apply (first_run_saves one_sale_server 10 nightly_env fresh_world march_first).
  - vm_compute. reflexivity.
  - vm_compute. reflexivity.
  - vm_compute. reflexivity.
Defined.

Lemma empty_day_scenario :
  main empty_server 10 nightly_env fresh_world =
  (Raised (ValueError "No sales data found"),
   with_sent fresh_world
     [page_request "food-token" "2024-03-01 00:00:00" "2024-03-01 23:59:59"
        50 0]).
Proof.
  assert (Hd : target_date_of nightly_env = Ok march_first)
    by (vm_compute; reflexivity).
  apply (proj1 (empty_source_aborts (RT := Reference.runtime) empty_server
                  10%nat nightly_env fresh_world march_first Hd)).
  vm_compute. reflexivity.
Defined.

Lemma main_requests_scenario :
  exists n m : nat,
    (n <= 10)%nat /\ (m <= 10)%nat /\
    sent (main one_sale_server 10 nightly_env fresh_world).2 =
      sent fresh_world
        ++ requests_from (token_text (FOOD_TOKEN nightly_env))
             (get_range_for_date march_first).1.1
             (get_range_for_date march_first).1.2 50 0 n
        ++ requests_from (token_text (BAR_TOKEN nightly_env))
             (get_range_for_date march_first).1.1
             (get_range_for_date march_first).1.2 50 0 m.
Proof.
  apply (main_requests one_sale_server 10 nightly_env fresh_world march_first).
  vm_compute. reflexivity.
Defined.

(** The requests of the scenario's run: one for Food, then one for Bar. *)
Example main_requests_run :
  map (fun rq => (rq_token rq, rq_from rq, rq_to rq, rq_limit rq, rq_offset rq))
      (sent (main one_sale_server 10 nightly_env fresh_world).2)
  = [ ("food-token", "2024-03-01 00:00:00", "2024-03-01 23:59:59", 50, 0);
      ("bar-token", "2024-03-01 00:00:00", "2024-03-01 23:59:59", 50, 0) ].
Proof. vm_compute. reflexivity. Qed.




Lemma numeric_columns_scenario :
  Forall (fun r => forall f, In f numeric_columns ->
                             is_numeric_cell (row_get f r) = true)
         (rows scenario_frame).
Proof.
  apply (numeric_columns_numeric [scenario_sale] scenario_frame).
  vm_compute. reflexivity.
Defined.


Lemma unread_key_scenario :
  convert_sales_api_to_dataframe
    (JList ([] ++ JDict (dict_set "loyalty_points" (JNum (NInt 7))
                           scenario_entries) :: [])) =
  convert_sales_api_to_dataframe (JList ([] ++ scenario_sale :: [])).
Proof.
  apply (proj1 (unread_keys_ignored "loyalty_points" (JNum (NInt 7)) [] [])
           scenario_entries).
  reflexivity.
Defined.

Lemma fetch_ends_without_data :
  fetch_all_sales_for_token fifty_then_no_data 2 "token" "from" "to" 50
    fresh_world =
  (Returned (concat [fifty_sales]),
   with_sent fresh_world
     (requests_from "token" "from" "to" 50 0 (S (length [fifty_sales])))).
Proof.
  apply (fetch_ends_on_falsy_batch fifty_then_no_data "token" "from" "to" 50
           (JDict [ ("message", JStr "no more") ]) [fifty_sales] 2 fresh_world).
  - repeat constructor.
  - intros n Hn. destruct n as [|n]; [|simpl in Hn; lia].
    eexists. split; reflexivity.
  - reflexivity.
  - reflexivity.
  - simpl. lia.
Defined.


Lemma backfill_any_day :
  main one_sale_server 10
    (on_day backfill_env {| year := 2025; month := 1; day := 1 |}) fresh_world
  = main one_sale_server 10 backfill_env fresh_world.
Proof.
  apply (explicit_date_ignores_today one_sale_server 10 backfill_env
           fresh_world "2024-03-01").
  - reflexivity.
  - discriminate.
Defined.
